(** * smonad.retry: a shallow embedding of the retry engine

    The development follows [smonad/retry.py].  Python objects become
    inductive data, the two output channels become strings held in an
    explicit machine state, exceptions become an [outcome], and the
    [while] loop of [f_retry] becomes a fixpoint on an iteration budget.
    Built-ins the module relies on ([str.format]) are taken as parameters
    of the engine; a concrete model of the fragment the tests exercise is
    given in [PyFormat] and is used for the concrete scenarios only. *)

From Stdlib Require Import ZArith String Ascii List Bool Lia Arith DecimalString.
From ExtLib Require Import Structures.Monad.
Import ListNotations.
Import MonadNotation.

Local Open Scope string_scope.
Local Open Scope Z_scope.
Local Open Scope monad_scope.

(** ** Python values and exceptions *)

(** Exceptions that can cross the engine.  [Injected] stands for an
    arbitrary [Exception] instance handed to [StoppedClock.set_times];
    [Unmodelled] marks a template outside the fragment of [str.format]
    that [PyFormat] covers. *)
Inductive exn : Type :=
| StopIteration
| KeyError (key : string)
| IndexError
| ValueError
| UnboundLocalError (name : string)
| AttributeError (name : string)
| Injected (name : string)
| Unmodelled.

(** Message payloads: [Success(value)] accepts any object. *)
Inductive pyval : Type :=
| PStr (s : string)
| PInt (z : Z)
| PNone.

(** [hasattr(v, 'format')] *)
Definition hasattr_format (v : pyval) : bool :=
  match v with PStr _ => true | _ => false end.

(** [isinstance(v, str)] *)
Definition isinstance_str (v : pyval) : bool :=
  match v with PStr _ => true | _ => false end.

(** ** Result model *)

Inductive cls : Type := Success_cls | Failure_cls | NotReady_cls.

(** Modelled from the spec: [ftry.Success] and [ftry.Failure] live in
    [smonad.types.ftry]; each carries its payload in [.value].
    [NotReady] is declared in [retry.py] as [class NotReady(Failure)]. *)
Inductive Result : Type :=
| Success (value : pyval)
| Failure (value : pyval)
| NotReady (value : pyval).

Definition value (r : Result) : pyval :=
  match r with Success v | Failure v | NotReady v => v end.

Definition class_of (r : Result) : cls :=
  match r with
  | Success _ => Success_cls
  | Failure _ => Failure_cls
  | NotReady _ => NotReady_cls
  end.

(** [issubclass(c, d)]: the only proper inheritance is [NotReady(Failure)]. *)
Definition issubclass (c d : cls) : bool :=
  match c, d with
  | Success_cls, Success_cls => true
  | Failure_cls, Failure_cls => true
  | NotReady_cls, NotReady_cls => true
  | NotReady_cls, Failure_cls => true
  | _, _ => false
  end.

Definition isinstance (r : Result) (c : cls) : bool :=
  issubclass (class_of r) c.

(** Modelled from the spec: [utils.succeeded] is the classification
    predicate that is true only for the Success variant. *)
Definition succeeded (r : Result) : bool := isinstance r Success_cls.

(** ** Outcomes and the machine state *)

Inductive outcome (A : Type) : Type :=
| Returned (a : A)
| Raised (e : exn)
| OutOfFuel.
Arguments Returned {A} a.
Arguments Raised {A} e.
Arguments OutOfFuel {A}.

(** Observable events of a session, newest first in [trace].  The trace
    is specification state only: no definition below ever reads it. *)
Inductive event : Type :=
| EvTime (t : Z)
| EvTimeRaised (e : exn)
| EvCall (r : Result)
| EvSleep (d : Z).

(** The clock interface of [retry.py]: any object with [time()] and
    [sleep(seconds)].  [W] is the environment the wrapped operation
    works on; a clock reading may touch it (see [StoppedClock]). *)
Class Clock (C W : Type) : Type := {
  clock_time : C -> W -> (exn + Z) * C * W;
  clock_sleep : Z -> C -> C
}.

(** [class TickCounter]: [__init__] and [increment]. *)
Record TickCounter : Type := mkTickCounter { count : nat }.

Definition TickCounter_init : TickCounter := {| count := 0 |}.
Definition increment (tc : TickCounter) : TickCounter :=
  {| count := (count tc + 1)%nat |}.

Definition newline : string := String (ascii_of_nat 10) EmptyString.

(** Keyword arguments handed to [str.format]. *)
Definition kwargs : Type := list (string * Z).

(** [needle in hay] on strings. *)
Fixpoint contains (needle hay : string) : bool :=
  String.prefix needle hay ||
  match hay with
  | EmptyString => false
  | String _ rest => contains needle rest
  end.

(** Truthiness of the optional [start_message]. *)
Definition truthy (m : option string) : bool :=
  match m with
  | None => false
  | Some EmptyString => false
  | Some _ => true
  end.

(** ** The engine *)

Section Engine.

Context {C W : Type} {clock_ops : Clock C W}.

(** [str.format] called with keyword arguments only: it either yields
    the substituted text or raises. *)
Variable format : string -> kwargs -> exn + string.

(** [clk] is the module-level [clock] singleton, [env] whatever the
    wrapped operation and the clock's side effects act on, [stdout]
    and [stderr] the text written so far. *)
Record state : Type := mkState {
  clk : C;
  env : W;
  stdout : string;
  stderr : string;
  trace : list event
}.

Definition M (A : Type) : Type := state -> outcome A * state.

#[global] Instance Monad_M : Monad M := {|
  ret := fun A (a : A) (s : state) => (Returned a, s);
  bind := fun A B (m : M A) (k : A -> M B) (s : state) =>
    match m s with
    | (Returned a, s') => k a s'
    | (Raised e, s') => (Raised e, s')
    | (OutOfFuel, s') => (OutOfFuel, s')
    end
|}.

Definition raise {A : Type} (e : exn) : M A := fun s => (Raised e, s).
Definition out_of_fuel {A : Type} : M A := fun s => (OutOfFuel, s).

(** Result of a fallible built-in, re-raised in the engine. *)
Definition lift {A : Type} (x : exn + A) : M A :=
  match x with inl e => raise e | inr a => ret a end.

(** [clock.time()] *)
Definition time : M Z := fun s =>
  match clock_time (clk s) (env s) with
  | (inr t, c, w) =>
      (Returned t, mkState c w (stdout s) (stderr s) (EvTime t :: trace s))
  | (inl e, c, w) =>
      (Raised e, mkState c w (stdout s) (stderr s) (EvTimeRaised e :: trace s))
  end.

(** [clock.sleep(seconds)] *)
Definition sleep (seconds : Z) : M unit := fun s =>
  (Returned tt,
   mkState (clock_sleep seconds (clk s)) (env s) (stdout s) (stderr s)
           (EvSleep seconds :: trace s)).

(** [sys.stdout.write(text)]; the flushes are not observable here. *)
Definition stdout_write (text : string) : M unit := fun s =>
  (Returned tt, mkState (clk s) (env s) (stdout s ++ text) (stderr s) (trace s)).

Definition stderr_write (text : string) : M unit := fun s =>
  (Returned tt, mkState (clk s) (env s) (stdout s) (stderr s ++ text) (trace s)).

(** Modelled from the spec: [utils.print_now(msg, err=False)] prints
    [msg] as one line on standard output, or on the error channel when
    [err] is set. *)
Definition print_now (msg : string) (err : bool) : M unit :=
  if err then stderr_write (msg ++ newline) else stdout_write (msg ++ newline).

Definition print_start_message (start_message : string) (start_time : Z) : M unit :=
  if contains "{start_time}" start_message then
    start_message_formatted <- lift (format start_message [("start_time", start_time)]) ;;
    print_now start_message_formatted false
  else
    print_now start_message false.

Definition end_kwargs (total_time : Z) (retry_count : nat) : kwargs :=
  [("total_time", total_time); ("retries", Z.of_nat retry_count)].

(** The [format] method of a payload, called with keyword arguments. *)
Definition value_format (v : pyval) (kw : kwargs) : exn + string :=
  match v with
  | PStr template => format template kw
  | _ => inl (AttributeError "format")
  end.

Definition print_end_message (result : Result) (total_time : Z) (retry_count : nat)
  : M unit :=
  stdout_write newline ;;
  if negb (hasattr_format (value result)) then ret tt
  else if succeeded result then
    text <- lift (value_format (value result) (end_kwargs total_time retry_count)) ;;
    print_now text false
  else if isinstance result NotReady_cls then
    text <- lift (value_format (value result) (end_kwargs total_time retry_count)) ;;
    print_now (text ++ "  Giving up.") true
  else
    text <- lift (value_format (value result) (end_kwargs total_time retry_count)) ;;
    print_now text true.

(** The parameters [retry] closes over. *)
Variable callable_object : W -> Result * W.
Variable timeout : Z.
Variable delay : Z.
Variable start_message : option string.
Variable silent : bool.

(** The call of [callable_object] on the caller's arguments. *)
Definition call : M Result := fun s =>
  let '(r, w) := callable_object (env s) in
  (Returned r, mkState (clk s) w (stdout s) (stderr s) (EvCall r :: trace s)).

(** Reading the local variable [result], unbound until the loop body
    has run once. *)
Definition local_result (result : option Result) : M Result :=
  match result with
  | Some r => ret r
  | None => raise (UnboundLocalError "result")
  end.

(** The [while current_time < deadline] loop of [f_retry]; [fuel]
    bounds the number of iterations.  It yields the locals [result],
    [current_time] and [tick_counter] as they stand when the loop is
    left. *)
Fixpoint retry_loop (fuel : nat) (deadline current_time : Z)
    (tick_counter : TickCounter) (result : option Result)
  : M (option Result * Z * TickCounter) :=
  if current_time <? deadline then
    match fuel with
    | O => out_of_fuel
    | S fuel' =>
        r <- call ;;
        let tick_counter := increment tick_counter in
        if isinstance r NotReady_cls then
          (if negb silent then
             stdout_write "." ;;
             (if (count tick_counter mod 80 =? 0)%nat
              then stdout_write newline else ret tt)
           else ret tt) ;;
          sleep delay ;;
          t <- time ;;
          retry_loop fuel' deadline t tick_counter (Some r)
        else
          ret (Some r, current_time, tick_counter)
    end
  else ret (result, current_time, tick_counter).

Definition f_retry (fuel : nat) : M Result :=
  start_time <- time ;;
  let deadline := start_time + timeout in
  let tick_counter := TickCounter_init in
  let current_time := start_time in
  (if truthy start_message && negb silent then
     match start_message with
     | Some msg => print_start_message msg start_time
     | None => ret tt
     end
   else ret tt) ;;
  '(result, current_time, tick_counter) <-
     retry_loop fuel deadline current_time tick_counter None ;;
  let total_time := current_time - start_time in
  (if negb silent then
     r <- local_result result ;;
     print_end_message r total_time (count tick_counter)
   else ret tt) ;;
  r <- local_result result ;;
  (if isinstance_str (value r) then
     _ <- lift (value_format (value r) (end_kwargs total_time (count tick_counter))) ;;
     ret tt
   else ret tt) ;;
  ret r.

(** *** Phases and observers of a session

    [f_retry] read as four steps: the first clock reading, the start
    announcement, the loop, and what follows the loop. *)

(** [s] once [text] has gone to standard output, or to the error
    channel. *)
Definition out_to (s : state) (text : string) : state :=
  mkState (clk s) (env s) (stdout s ++ text) (stderr s) (trace s).

Definition err_to (s : state) (text : string) : state :=
  mkState (clk s) (env s) (stdout s) (stderr s ++ text) (trace s).

(** State right after the first clock reading. *)
Definition started (s : state) (start_time : Z) (c : C) (w : W) : state :=
  mkState c w (stdout s) (stderr s) (EvTime start_time :: trace s).

(** What one [NotReady] answer adds to standard output. *)
Definition progress_text (tick_counter : TickCounter) : string :=
  if silent then ""
  else "." ++ (if (count tick_counter mod 80 =? 0)%nat then newline else "").

(** The start announcement of [f_retry] (lines 162 and 163). *)
Definition announce_start (start_time : Z) : M unit :=
  if truthy start_message && negb silent then
    match start_message with
    | Some msg => print_start_message msg start_time
    | None => ret tt
    end
  else ret tt.

(** What [f_retry] does once the loop is left (lines 182 to 190). *)
Definition finish (start_time : Z) (locals : option Result * Z * TickCounter)
  : M Result :=
  let '(result, current_time, tick_counter) := locals in
  let total_time := current_time - start_time in
  (if negb silent then
     r <- local_result result ;;
     print_end_message r total_time (count tick_counter)
   else ret tt) ;;
  r <- local_result result ;;
  (if isinstance_str (value r) then
     _ <- lift (value_format (value r)
                  (end_kwargs total_time (count tick_counter))) ;;
     ret tt
   else ret tt) ;;
  ret r.

(** Text of the start announcement. *)
Definition start_text (start_time : Z) : string :=
  if truthy start_message && negb silent then
    match start_message with
    | Some msg =>
        if contains "{start_time}" msg then
          match format msg [("start_time", start_time)] with
          | inr text => text ++ newline
          | inl _ => ""
          end
        else msg ++ newline
    | None => ""
    end
  else "".

(** The start announcement cannot fail but in the substitution. *)
Definition start_message_ok (start_time : Z) : Prop :=
  forall msg,
    start_message = Some msg -> silent = false ->
    contains "{start_time}" msg = true ->
    exists text, format msg [("start_time", start_time)] = inr text.

(** A string payload can be substituted with these numbers. *)
Definition payload_ok (r : Result) (total_time : Z) (retry_count : nat) : Prop :=
  forall template,
    value r = PStr template ->
    exists text, format template (end_kwargs total_time retry_count) = inr text.

(** State after the end announcement of a returning session. *)
Definition end_state (r : Result) (total_time : Z) (retry_count : nat)
    (s : state) : state :=
  if silent then s
  else snd (print_end_message r total_time retry_count s).

(** The last three lines of [f_retry] (187 to 190), state spelled out. *)
Definition check_payload (r : Result) (total_time : Z) (retry_count : nat)
    (s : state) : outcome Result * state :=
  if isinstance_str (value r) then
    match value_format (value r) (end_kwargs total_time retry_count) with
    | inl e => (Raised e, s)
    | inr _ => (Returned r, s)
    end
  else (Returned r, s).

End Engine.

Arguments state C W : clear implicits.
Arguments M C W A : clear implicits.

(** ** [retry] and [retry_decorator]

    Keyword parameters are [option]s: [None] is an argument the caller
    left out, replaced by the default of the signature. *)

Definition default {A : Type} (d : A) (arg : option A) : A :=
  match arg with Some a => a | None => d end.

Section Wrappers.

Context {C W : Type} {clock_ops : Clock C W}.
Variable format : string -> kwargs -> exn + string.

Definition retry (callable_object : W -> Result * W)
    (timeout delay : option Z) (start_message : option (option string))
    (silent : option bool) : nat -> M C W Result :=
  let timeout := default 600 timeout in
  let delay := default 4 delay in
  let start_message := default None start_message in
  let silent := default false silent in
  f_retry format callable_object timeout delay start_message silent.

Definition retry_decorator (timeout delay : option Z)
    (start_message : option (option string)) (silent : option bool)
  : (W -> Result * W) -> nat -> M C W Result :=
  let timeout := default 600 timeout in
  let delay := default 4 delay in
  let start_message := default None start_message in
  let silent := default false silent in
  let deco_retry := fun f =>
    retry f (Some timeout) (Some delay) (Some start_message) (Some silent) in
  deco_retry.

End Wrappers.

(** ** The test double [StoppedClock] *)

Module StoppedClock.

Section WithEnv.

Variable W : Type.

(** One element of the list given to [set_times]: a bare value, or a
    pair of a value and a side effect, the side effect being either
    an exception instance or a callable. *)
Inductive entry : Type :=
| Plain (v : Z)
| WithException (v : Z) (side_effect : exn)
| WithEffect (v : Z) (side_effect : W -> W).

(** [current] is the iterator over [times]; it does not exist before
    [set_times] has been called. *)
Record t : Type := mk { times : list entry; current : option (list entry) }.

Definition init : t := {| times := []; current := None |}.

Definition set_times (new_times : list entry) (c : t) : t :=
  {| times := new_times; current := Some new_times |}.

Definition sleep (seconds : Z) (c : t) : t := c.

Definition time (c : t) (w : W) : (exn + Z) * t * W :=
  match current c with
  | None => (inl (AttributeError "current"), c, w)
  | Some [] => (inl StopIteration, c, w)
  | Some (current_time :: rest) =>
      let c' := {| times := times c; current := Some rest |} in
      match current_time with
      | Plain v => (inr v, c', w)
      | WithException _ side_effect => (inl side_effect, c', w)
      | WithEffect current_time_val side_effect =>
          (inr current_time_val, c', side_effect w)
      end
  end.

#[export] Instance clock : Clock t W :=
  {| clock_time := time; clock_sleep := sleep |}.

(** Readings still to come. *)
Definition remaining (c : t) : nat :=
  match current c with Some l => length l | None => 0%nat end.

End WithEnv.

Arguments Plain {W} v.
Arguments WithException {W} v side_effect.
Arguments WithEffect {W} v side_effect.
Arguments mk {W} times current.
Arguments times {W} t.
Arguments current {W} t.
Arguments init {W}.
Arguments set_times {W} new_times c.
Arguments time {W} c w.
Arguments sleep {W} seconds c.
Arguments remaining {W} c.

End StoppedClock.
Export (hints) StoppedClock.

(** ** A model of [str.format] for plain named fields

    Covered: literal text, the escapes for the two braces, and fields
    that are a bare keyword name.  A field with a conversion, a format
    spec, an attribute or index lookup or a nested field is reported as
    [Unmodelled]. *)

Module PyFormat.

Fixpoint lookup (name : string) (kw : kwargs) : option Z :=
  match kw with
  | [] => None
  | (k, v) :: kw' => if String.eqb k name then Some v else lookup name kw'
  end.

(** [str(z)] *)
Definition str (z : Z) : string := NilZero.string_of_int (Z.to_int z).

Definition is_digit (c : ascii) : bool :=
  let n := nat_of_ascii c in ((48 <=? n) && (n <=? 57))%nat.

Fixpoint all_digits (s : string) : bool :=
  match s with
  | EmptyString => true
  | String c rest => is_digit c && all_digits rest
  end.

Definition is_special (c : ascii) : bool :=
  existsb (Ascii.eqb c) ["!"; ":"; "."; "["; "]"; "{"]%char.

Fixpoint has_special (s : string) : bool :=
  match s with
  | EmptyString => false
  | String c rest => is_special c || has_special rest
  end.

(** The text a replacement field stands for.  No positional argument
    is ever passed, so an empty field or a numeric one is out of range;
    a number of ten digits or more may not even be an index for Python
    and is left out of the fragment. *)
Definition field (name : string) (kw : kwargs) : exn + string :=
  if all_digits name then
    if (String.length name <=? 9)%nat then inl IndexError else inl Unmodelled
  else if has_special name then inl Unmodelled
  else match lookup name kw with
       | Some v => inr (str v)
       | None => inl (KeyError name)
       end.

Definition prepend (text : string) (x : exn + string) : exn + string :=
  match x with inl e => inl e | inr rest => inr (text ++ rest) end.

(** [pending] is the field name read so far when inside a field. *)
Fixpoint scan (template : string) (pending : option string) (kw : kwargs)
  : exn + string :=
  match template, pending with
  | EmptyString, None => inr ""
  | EmptyString, Some _ => inl ValueError
  | String c rest, Some name =>
      if Ascii.eqb c "}" then
        match field name kw with
        | inl e => inl e
        | inr text => prepend text (scan rest None kw)
        end
      else scan rest (Some (name ++ String c "")) kw
  | String c rest, None =>
      if Ascii.eqb c "{" then
        match rest with
        | String "{" rest' => prepend "{" (scan rest' None kw)
        | _ => scan rest (Some "") kw
        end
      else if Ascii.eqb c "}" then
        match rest with
        | String "}" rest' => prepend "}" (scan rest' None kw)
        | _ => inl ValueError
        end
      else prepend (String c "") (scan rest None kw)
  end.

Definition format (template : string) (kw : kwargs) : exn + string :=
  scan template None kw.

End PyFormat.

(** ** The operation of the test suite *)

(** [ValueHolder.value] is [True], [False] or something else ([None] in
    the tests): [Some true], [Some false], [None]. *)
Definition ValueHolder : Type := option bool.

Definition check_value (value_holder : ValueHolder) : Result * ValueHolder :=
  match value_holder with
  | Some true =>
      (Success (PStr "Check succeeded after {total_time} seconds and {retries} retries"),
       value_holder)
  | Some false =>
      (NotReady (PStr "Check still not ready after {total_time} seconds and {retries} retries"),
       value_holder)
  | None =>
      (Failure (PStr "Check failed after {total_time} seconds and {retries} retries"),
       value_holder)
  end.

Definition initial_state {W : Type} (c : StoppedClock.t W) (w : W)
  : state (StoppedClock.t W) W :=
  mkState c w "" "" [].

Definition plain_times {W : Type} (l : list Z) : list (StoppedClock.entry W) :=
  map StoppedClock.Plain l.

Definition not_ready_message : Result :=
  NotReady (PStr
    "Check still not ready after {total_time} seconds and {retries} retries").

Definition success_message : Result :=
  Success (PStr
    "Check succeeded after {total_time} seconds and {retries} retries").

(** The clock of [test_retry_fails_after_5_times]. *)
Definition test_clock : StoppedClock.t ValueHolder :=
  StoppedClock.set_times (plain_times [200; 250; 300; 350; 500; 600])
    StoppedClock.init.

(** [retry(check_value, timeout=t)] called with a holder [w] under the
    test clock. *)
Definition test_session (t : Z) (w : ValueHolder) (fuel : nat)
  : outcome Result * state (StoppedClock.t ValueHolder) ValueHolder :=
  f_retry PyFormat.format check_value t 4 None false fuel
    (initial_state test_clock w).

(** The clock of [test_retry_tick_count_wraps]: readings 1 to 299. *)
Definition wrap_clock : StoppedClock.t ValueHolder :=
  StoppedClock.set_times (plain_times (map Z.of_nat (seq 1 299)))
    StoppedClock.init.

(** The clock of a session whose third reading fails. *)
Definition failing_clock : StoppedClock.t ValueHolder :=
  StoppedClock.set_times
    [StoppedClock.Plain 200; StoppedClock.Plain 250;
     StoppedClock.WithException 300 (Injected "boom");
     StoppedClock.Plain 350]
    StoppedClock.init.

(** The side effect [lambda: value_holder.set(v)] of a clock entry. *)
Definition set (v : ValueHolder) : ValueHolder -> ValueHolder := fun _ => v.

Definition clock_with_effect (v : ValueHolder) : StoppedClock.t ValueHolder :=
  StoppedClock.set_times
    [StoppedClock.Plain 200; StoppedClock.Plain 250;
     StoppedClock.WithEffect 300 (set v);
     StoppedClock.Plain 350; StoppedClock.Plain 500]
    StoppedClock.init.

(** ** Observers of the session trace (newest event first) *)

Definition is_call (e : event) : bool :=
  match e with EvCall _ => true | _ => false end.

Definition is_not_ready_call (e : event) : bool :=
  match e with EvCall r => isinstance r NotReady_cls | _ => false end.

(** Number of invocations of the wrapped operation. *)
Definition count_calls (tr : list event) : nat := length (filter is_call tr).

(** Number of invocations that answered [NotReady]. *)
Definition count_not_ready (tr : list event) : nat :=
  length (filter is_not_ready_call tr).

(** The most recent clock reading. *)
Fixpoint last_sample (tr : list event) : option Z :=
  match tr with
  | [] => None
  | EvTime t :: _ => Some t
  | _ :: older => last_sample older
  end.

(** The earliest clock reading. *)
Definition first_sample (tr : list event) : option Z := last_sample (rev tr).

(** The result of the most recent invocation. *)
Fixpoint last_call (tr : list event) : option Result :=
  match tr with
  | [] => None
  | EvCall r :: _ => Some r
  | _ :: older => last_call older
  end.

(** Every attempt comes directly after a clock reading below the
    deadline. *)
Fixpoint attempts_checked (deadline : Z) (tr : list event) : bool :=
  match tr with
  | [] => true
  | EvCall _ :: older =>
      match older with
      | EvTime t :: _ => (t <? deadline) && attempts_checked deadline older
      | _ => false
      end
  | _ :: older => attempts_checked deadline older
  end.

(** Every clock reading but the earliest comes directly after a sleep. *)
Fixpoint samples_after_sleep (tr : list event) : bool :=
  match tr with
  | [] => true
  | EvTime _ :: older =>
      match older with
      | [] => true
      | EvSleep _ :: _ => samples_after_sleep older
      | _ => false
      end
  | _ :: older => samples_after_sleep older
  end.

(** A clock reading at or past the deadline is the end of the trace:
    whatever has a later event after it lies below the deadline. *)
Fixpoint nothing_after_deadline (deadline : Z) (tr : list event) : bool :=
  match tr with
  | [] => true
  | _ :: older =>
      match older with
      | EvTime t :: _ => (t <? deadline) && nothing_after_deadline deadline older
      | _ => nothing_after_deadline deadline older
      end
  end.

(** ** Progress output *)

(** What the loop writes for [n] consecutive [NotReady] answers when the
    tick counter stands at [ticks] beforehand. *)
Fixpoint markers_from (ticks n : nat) : string :=
  match n with
  | O => ""
  | S n' =>
      "." ++ (if ((ticks + 1) mod 80 =? 0)%nat then newline else "")
          ++ markers_from (ticks + 1) n'
  end.

Fixpoint dots (n : nat) : string :=
  match n with O => "" | S n' => "." ++ dots n' end.

Fixpoint full_lines (q : nat) : string :=
  match q with O => "" | S q' => dots 80 ++ newline ++ full_lines q' end.

(** The spec's wording: [n] markers, a line break after every 80th. *)
Definition wrapped_markers (n : nat) : string :=
  full_lines (n / 80) ++ dots (n mod 80).

Fixpoint count_char (c : ascii) (s : string) : nat :=
  match s with
  | EmptyString => O
  | String c' rest => ((if Ascii.eqb c c' then 1 else 0) + count_char c rest)%nat
  end.

(** ** Further observers *)

Definition is_sample (e : event) : bool :=
  match e with EvTime _ => true | _ => false end.

Definition is_sleep (e : event) : bool :=
  match e with EvSleep _ => true | _ => false end.

(** Number of clock readings that gave a time. *)
Definition count_samples (tr : list event) : nat := length (filter is_sample tr).

(** Number of sleeps. *)
Definition count_sleeps (tr : list event) : nat := length (filter is_sleep tr).

(** Every sleep in the trace lasts [delay] and comes directly after a
    [NotReady] answer. *)
Fixpoint sleeps_after_not_ready (delay : Z) (tr : list event) : bool :=
  match tr with
  | [] => true
  | EvSleep d :: older =>
      (d =? delay) &&
      match older with
      | EvCall r :: _ => isinstance r NotReady_cls
      | _ => false
      end && sleeps_after_not_ready delay older
  | _ :: older => sleeps_after_not_ready delay older
  end.

(** [n] calls of [StoppedClock.time] in a row: what each gave, oldest
    first, and the clock and environment left behind. *)
Fixpoint readings {W : Type} (n : nat) (c : StoppedClock.t W) (w : W)
  : list (exn + Z) * StoppedClock.t W * W :=
  match n with
  | O => ([], c, w)
  | S n' =>
      let '(x, c', w') := StoppedClock.time c w in
      let '(xs, c'', w'') := readings n' c' w' in
      (x :: xs, c'', w'')
  end.

(** ** Basic facts *)

#[local] Arguments Nat.modulo : simpl never.
#[local] Arguments Nat.div : simpl never.
#[local] Arguments increment : simpl never.

Lemma string_app_assoc (a b c : string) : (a ++ b) ++ c = a ++ (b ++ c).
Proof. induction a as [|x a IH]; simpl; [reflexivity | now rewrite IH]. Qed.

Lemma string_app_nil_r (a : string) : a ++ "" = a.
Proof. induction a as [|x a IH]; simpl; [reflexivity | now rewrite IH]. Qed.

Lemma count_calls_app (a b : list event) :
  count_calls (a ++ b) = (count_calls a + count_calls b)%nat.
Proof. unfold count_calls. now rewrite filter_app, length_app. Qed.

Lemma count_not_ready_app (a b : list event) :
  count_not_ready (a ++ b) = (count_not_ready a + count_not_ready b)%nat.
Proof. unfold count_not_ready. now rewrite filter_app, length_app. Qed.


Lemma first_sample_snoc (tr : list event) (t : Z) :
  first_sample (tr ++ [EvTime t]) = Some t.
Proof. unfold first_sample. rewrite rev_app_distr. reflexivity. Qed.

(** *** Progress markers and line wrapping *)

Lemma dots_snoc (n : nat) : dots n ++ "." = dots (S n).
Proof. induction n as [|n IH]; cbn; [reflexivity | now rewrite IH]. Qed.

Lemma succ_mod_80 (c : nat) :
  (c mod 80 + 1 < 80)%nat -> ((c + 1) mod 80 = c mod 80 + 1)%nat.
Proof.
  intros H. symmetry. apply Nat.mod_unique with (q := (c / 80)%nat); [exact H|].
  pose proof (Nat.div_mod_eq c 80). lia.
Qed.

Lemma markers_from_dots (n : nat) :
  forall c, (c mod 80 + n < 80)%nat -> markers_from c n = dots n.
Proof.
  induction n as [|n IH]; intros c H; [reflexivity|].
  cbn [markers_from dots].
  assert (Hm : ((c + 1) mod 80 = c mod 80 + 1)%nat) by (apply succ_mod_80; lia).
  rewrite Hm.
  replace (c mod 80 + 1 =? 0)%nat with false
    by (symmetry; apply Nat.eqb_neq; lia).
  cbn. rewrite IH by lia. reflexivity.
Qed.

Lemma markers_from_app (a : nat) :
  forall c b,
    markers_from c (a + b) = markers_from c a ++ markers_from (c + a) b.
Proof.
  induction a as [|a IH]; intros c b.
  - cbn. now rewrite Nat.add_0_r.
  - cbn [Nat.add markers_from]. rewrite IH.
    replace (c + 1 + a)%nat with (c + S a)%nat by lia.
    now rewrite !string_app_assoc.
Qed.

Lemma markers_from_line (c : nat) :
  (c mod 80 = 0)%nat -> markers_from c 80 = dots 80 ++ newline.
Proof.
  intros H.
  replace (markers_from c 80) with (markers_from c (79 + 1)) by reflexivity.
  rewrite markers_from_app, markers_from_dots by lia.
  cbn [markers_from].
  replace ((c + 79 + 1) mod 80)%nat with 0%nat.
  - cbn [Nat.eqb]. rewrite string_app_nil_r, <- string_app_assoc, dots_snoc.
    reflexivity.
  - apply Nat.mod_unique with (q := (c / 80 + 1)%nat); [lia|].
    pose proof (Nat.div_mod_eq c 80). lia.
Qed.

Lemma markers_from_lines (q : nat) :
  forall c r,
    (c mod 80 = 0)%nat -> (r < 80)%nat ->
    markers_from c (80 * q + r) = full_lines q ++ dots r.
Proof.
  induction q as [|q IH]; intros c r Hc Hr.
  - rewrite Nat.mul_0_r. cbn [Nat.add full_lines append].
    apply markers_from_dots. lia.
  - replace (80 * S q + r)%nat with (80 + (80 * q + r))%nat by lia.
    rewrite markers_from_app, markers_from_line by assumption.
    rewrite IH; [| | assumption].
    + cbn [full_lines]. now rewrite !string_app_assoc.
    + symmetry. apply Nat.mod_unique with (q := (c / 80 + 1)%nat); [lia|].
      pose proof (Nat.div_mod_eq c 80). lia.
Qed.

(** The loop's output is the spec's wrapped line of markers. *)
Lemma markers_wrapped (n : nat) : markers_from 0 n = wrapped_markers n.
Proof.
  unfold wrapped_markers.
  rewrite (Nat.div_mod_eq n 80) at 1.
  apply markers_from_lines; [reflexivity|].
  apply Nat.mod_upper_bound. discriminate.
Qed.

Lemma count_char_app (c : ascii) (a b : string) :
  count_char c (a ++ b) = (count_char c a + count_char c b)%nat.
Proof. induction a as [|x a IH]; cbn; [reflexivity | rewrite IH; lia]. Qed.

Lemma count_char_dots (n : nat) : count_char "." (dots n) = n.
Proof. induction n as [|n IH]; cbn; [reflexivity | now rewrite IH]. Qed.

Lemma count_char_full_lines (q : nat) :
  count_char "." (full_lines q) = (80 * q)%nat.
Proof.
  induction q as [|q IH]; [reflexivity|].
  cbn [full_lines]. rewrite !count_char_app, count_char_dots, IH.
  cbn [count_char newline]. replace (Ascii.eqb "." (ascii_of_nat 10)) with false
    by reflexivity. lia.
Qed.

Lemma count_char_wrapped (n : nat) : count_char "." (wrapped_markers n) = n.
Proof.
  unfold wrapped_markers.
  rewrite count_char_app, count_char_full_lines, count_char_dots.
  symmetry. apply Nat.div_mod_eq.
Qed.

(** Split a goal that is a conjunction as it stands. *)
Ltac conj := match goal with |- _ /\ _ => split end.

Section EngineFacts.

Context {C W : Type} {clock_ops : Clock C W}.
Variable format : string -> kwargs -> exn + string.
Variable callable_object : W -> Result * W.
Variable timeout delay : Z.
Variable start_message : option string.
Variable silent : bool.

Abbreviation state := (state C W).
Abbreviation M := (M C W).
Abbreviation retry_loop := (retry_loop callable_object delay silent).
Abbreviation f_retry :=
  (f_retry format callable_object timeout delay start_message silent).
Abbreviation progress_text := (progress_text silent).
Abbreviation announce_start := (announce_start format start_message silent).
Abbreviation finish := (finish format silent).
Abbreviation start_text := (start_text format start_message silent).
Abbreviation start_message_ok := (start_message_ok format start_message silent).
Abbreviation payload_ok := (payload_ok format).
Abbreviation end_state := (end_state format silent).
Abbreviation check_payload := (check_payload format).

(** Inversion of a sequencing step. *)
Lemma bind_inv {A B : Type} (m : M A) (k : A -> M B) s out s' :
  bind m k s = (out, s') ->
  (exists a s1, m s = (Returned a, s1) /\ k a s1 = (out, s')) \/
  (exists e, m s = (Raised e, s') /\ out = Raised e) \/
  (m s = (OutOfFuel, s') /\ out = OutOfFuel).
Proof.
  cbn. destruct (m s) as [[a|e|] s1]; intros H.
  - left. eauto.
  - right. left. inversion H; subst. eauto.
  - right. right. inversion H; subst. eauto.
Qed.

(** One turn of the loop, state spelled out. *)
Lemma retry_loop_unfold fuel deadline current_time tick_counter result s :
  retry_loop (S fuel) deadline current_time tick_counter result s =
  if current_time <? deadline then
    let '(r, w) := callable_object (env s) in
    if isinstance r NotReady_cls then
      match clock_time (clock_sleep delay (clk s)) w with
      | (inr t, c, w') =>
          retry_loop fuel deadline t (increment tick_counter) (Some r)
            (mkState c w' (stdout s ++ progress_text (increment tick_counter))
                     (stderr s)
                     (EvTime t :: EvSleep delay :: EvCall r :: trace s))
      | (inl e, c, w') =>
          (Raised e,
           mkState c w' (stdout s ++ progress_text (increment tick_counter))
                   (stderr s)
                   (EvTimeRaised e :: EvSleep delay :: EvCall r :: trace s))
      end
    else
      (Returned (Some r, current_time, increment tick_counter),
       mkState (clk s) w (stdout s) (stderr s) (EvCall r :: trace s))
  else (Returned (result, current_time, tick_counter), s).
Proof.
  cbn. destruct (current_time <? deadline); [|reflexivity].
  unfold call. destruct (callable_object (env s)) as [r w].
  destruct (isinstance r NotReady_cls); [|reflexivity].
  unfold progress_text.
  destruct silent; cbn; unfold time; cbn.
  - rewrite string_app_nil_r.
    destruct (clock_time (clock_sleep delay (clk s)) w) as [[[e|t] c] w'];
      reflexivity.
  - destruct (count (increment tick_counter) mod 80 =? 0)%nat; cbn;
      rewrite ?string_app_assoc, ?string_app_nil_r;
      destruct (clock_time (clock_sleep delay (clk s)) w) as [[[e|t] c] w'];
      reflexivity.
Qed.

Lemma retry_loop_expired fuel deadline current_time tick_counter result s :
  deadline <= current_time ->
  retry_loop fuel deadline current_time tick_counter result s =
  (Returned (result, current_time, tick_counter), s).
Proof.
  intros H. destruct fuel; cbn;
    destruct (Z.ltb_spec current_time deadline); try lia; reflexivity.
Qed.

(** *** The reporter *)

Lemma out_to_nil (s : state) : out_to s "" = s.
Proof. destruct s. unfold out_to. cbn. now rewrite string_app_nil_r. Qed.

Lemma out_to_out_to (s : state) a b : out_to (out_to s a) b = out_to s (a ++ b).
Proof. unfold out_to. cbn. now rewrite string_app_assoc. Qed.

(** [print_end_message], state spelled out. *)
Lemma print_end_message_run result total_time retry_count (s : state) :
  print_end_message format result total_time retry_count s =
  let s0 := out_to s newline in
  if hasattr_format (value result) then
    match value_format format (value result) (end_kwargs total_time retry_count) with
    | inl e => (Raised e, s0)
    | inr text =>
        (Returned tt,
         match result with
         | Success _ => out_to s0 (text ++ newline)
         | NotReady _ => err_to s0 ((text ++ "  Giving up.") ++ newline)
         | Failure _ => err_to s0 (text ++ newline)
         end)
    end
  else (Returned tt, s0).
Proof.
  unfold print_end_message. cbn.
  destruct (hasattr_format (value result)); [|reflexivity]. cbn.
  destruct result as [v|v|v]; cbn;
    destruct (value_format format v (end_kwargs total_time retry_count));
    reflexivity.
Qed.

(** *** The phases of [f_retry] *)

Lemma f_retry_phases fuel :
  f_retry fuel =
  (start_time <- time ;;
   announce_start start_time ;;
   locals <- retry_loop fuel (start_time + timeout) start_time
               TickCounter_init None ;;
   finish start_time locals).
Proof. reflexivity. Qed.

Lemma announce_start_inv start_time (s s' : state) out :
  announce_start start_time s = (out, s') ->
  (out = Returned tt /\ s' = out_to s (start_text start_time)) \/
  (exists e, out = Raised e /\ s' = s /\ ~ start_message_ok start_time /\
             start_text start_time = "").
Proof.
  unfold announce_start, start_text, start_message_ok.
  destruct (truthy start_message && negb silent) eqn:E.
  - apply andb_prop in E as [E1 E2].
    destruct start_message as [msg|]; [|discriminate].
    destruct silent; [discriminate|].
    unfold print_start_message.
    destruct (contains "{start_time}" msg) eqn:Ec.
    + cbn. destruct (format msg [("start_time", start_time)]) as [e|text] eqn:Ef;
        cbn; intros H; inversion H; subst.
      * right. exists e. repeat split; auto.
        intros Hok. destruct (Hok msg eq_refl eq_refl Ec) as [text Ht].
        congruence.
      * left. split; reflexivity.
    + cbn. intros H; inversion H; subst. left. split; reflexivity.
  - cbn. intros H; inversion H; subst. left. split; [reflexivity|].
    now rewrite out_to_nil.
Qed.

Lemma announce_start_ok start_time (s : state) :
  start_message_ok start_time ->
  announce_start start_time s = (Returned tt, out_to s (start_text start_time)).
Proof.
  intros Hok.
  destruct (announce_start start_time s) as [out s'] eqn:E.
  destruct (announce_start_inv _ _ _ _ E) as [[-> ->]|[e [_ [_ [Hn _]]]]];
    [reflexivity | contradiction].
Qed.

Lemma finish_run start_time result current_time tick_counter (s : state) :
  finish start_time (result, current_time, tick_counter) s =
  match result with
  | None => (Raised (UnboundLocalError "result"), s)
  | Some r =>
      let total_time := current_time - start_time in
      if silent then check_payload r total_time (count tick_counter) s
      else
        match print_end_message format r total_time (count tick_counter) s with
        | (Returned _, s1) => check_payload r total_time (count tick_counter) s1
        | (Raised e, s1) => (Raised e, s1)
        | (OutOfFuel, s1) => (OutOfFuel, s1)
        end
  end.
Proof.
  unfold finish, check_payload.
  destruct result as [r|]; cbn -[print_end_message].
  2:{ destruct silent; reflexivity. }
  destruct silent; cbn -[print_end_message].
  - destruct (isinstance_str (value r)); [|reflexivity].
    destruct (value_format format (value r) _); reflexivity.
  - destruct (print_end_message format r _ _ s) as [[[]|e|] s1]; try reflexivity.
    destruct (isinstance_str (value r)); [|reflexivity].
    destruct (value_format format (value r) _); reflexivity.
Qed.

Lemma print_end_message_inv r total_time retry_count (s s' : state) out :
  print_end_message format r total_time retry_count s = (out, s') ->
  trace s' = trace s /\ clk s' = clk s /\ env s' = env s /\ out <> OutOfFuel.
Proof.
  rewrite print_end_message_run. cbn.
  destruct (hasattr_format (value r)).
  - destruct (value_format format (value r) _).
    + intros H; inversion H; subst. repeat split; discriminate.
    + intros H; inversion H; subst. destruct r; repeat split; discriminate.
  - intros H; inversion H; subst. repeat split; discriminate.
Qed.

Lemma check_payload_inv r total_time retry_count (s s' : state) out :
  check_payload r total_time retry_count s = (out, s') ->
  s' = s /\ out <> OutOfFuel /\
  forall r', out = Returned r' -> r' = r /\ payload_ok r total_time retry_count.
Proof.
  unfold check_payload, payload_ok.
  destruct (isinstance_str (value r)) eqn:Ei.
  - destruct (value_format format (value r) _) eqn:Ef;
      intros H; inversion H; subst;
      (split; [reflexivity | split; [discriminate|]]);
      intros r' Hr; inversion Hr; subst.
    split; [reflexivity|]. intros template Hv.
    unfold value_format in Ef. rewrite Hv in Ef. eauto.
  - intros H; inversion H; subst.
    split; [reflexivity | split; [discriminate|]].
    intros r' Hr; inversion Hr; subst.
    split; [reflexivity|]. intros template Hv.
    rewrite Hv in Ei. discriminate.
Qed.

Lemma finish_inv start_time result current_time tick_counter (s s' : state) out :
  finish start_time (result, current_time, tick_counter) s = (out, s') ->
  trace s' = trace s /\ clk s' = clk s /\ env s' = env s /\
  out <> OutOfFuel /\
  forall r, out = Returned r ->
    result = Some r /\
    payload_ok r (current_time - start_time) (count tick_counter) /\
    s' = end_state r (current_time - start_time) (count tick_counter) s /\
    (silent = false ->
     print_end_message format r (current_time - start_time)
       (count tick_counter) s = (Returned tt, s')).
Proof.
  rewrite finish_run. unfold end_state.
  destruct result as [r|].
  2:{ intros H; inversion H; subst.
      repeat (conj; [reflexivity || discriminate|]). intros ? Hr0; discriminate. }
  cbn zeta. destruct silent.
  - intros H. apply check_payload_inv in H as [-> [Hne Hr]].
    repeat (conj; [reflexivity || assumption|]).
    intros r' Hr'. destruct (Hr r' Hr') as [-> Hok].
    repeat (conj; [reflexivity || assumption|]). discriminate.
  - destruct (print_end_message format r _ _ s) as [[[]|e|] s1] eqn:Ep;
      destruct (print_end_message_inv _ _ _ _ _ _ Ep) as [Ht [Hc [He Hn]]].
    + intros H. apply check_payload_inv in H as [-> [Hne Hr]].
      repeat (conj; [reflexivity || assumption|]).
      intros r' Hr'. destruct (Hr r' Hr') as [-> Hok].
      rewrite Ep. repeat (conj; [reflexivity || assumption|]). reflexivity.
    + intros H; inversion H; subst.
      repeat (conj; [reflexivity || assumption || discriminate|]).
      intros r' Hr'; discriminate.
    + contradiction.
Qed.

Lemma finish_ok start_time r current_time tick_counter (s : state) :
  payload_ok r (current_time - start_time) (count tick_counter) ->
  finish start_time (Some r, current_time, tick_counter) s =
  (Returned r, end_state r (current_time - start_time) (count tick_counter) s).
Proof.
  intros Hok. rewrite finish_run. unfold end_state. cbn zeta.
  assert (Hc : forall s1 : state,
    check_payload r (current_time - start_time) (count tick_counter) s1
    = (Returned r, s1)).
  { intros s1. unfold check_payload.
    destruct (value r) as [t| |] eqn:Ev; cbn; try reflexivity.
    destruct (Hok t) as [text ->]; [assumption | reflexivity]. }
  destruct silent; [apply Hc|].
  rewrite print_end_message_run. cbn.
  destruct (value r) as [t| |] eqn:Ev; cbn; try apply Hc.
  destruct (Hok t) as [text ->]; [exact Ev | apply Hc].
Qed.

(** The last phase only ever appends to standard output. *)
Lemma finish_stdout start_time locals (s s' : state) out :
  finish start_time locals s = (out, s') ->
  exists tail, stdout s' = stdout s ++ tail.
Proof.
  destruct locals as [[result current_time] tick_counter].
  rewrite finish_run.
  destruct result as [r|].
  2:{ intros H; inversion H; subst. exists "". now rewrite string_app_nil_r. }
  cbn zeta. destruct silent.
  - intros H. apply check_payload_inv in H as [-> _].
    exists "". now rewrite string_app_nil_r.
  - rewrite print_end_message_run. cbn.
    assert (Hc : forall (s1 : state) tail,
               stdout s1 = stdout s ++ tail ->
               check_payload r (current_time - start_time) (count tick_counter) s1
               = (out, s') ->
               exists tail', stdout s' = stdout s ++ tail').
    { intros s1 tail Hs1 H. apply check_payload_inv in H as [-> _]. eauto. }
    destruct (hasattr_format (value r)).
    + destruct (value_format format (value r) _).
      * intros H; inversion H; subst. cbn. eauto.
      * destruct r; intros H; refine (Hc _ _ _ H); cbn;
          rewrite ?string_app_assoc; reflexivity.
    + intros H. refine (Hc _ _ _ H). reflexivity.
Qed.

(** *** The loop *)

Lemma retry_loop_zero deadline current_time tick_counter result (s : state) :
  retry_loop 0 deadline current_time tick_counter result s =
  if current_time <? deadline then (OutOfFuel, s)
  else (Returned (result, current_time, tick_counter), s).
Proof. cbn. destruct (current_time <? deadline); reflexivity. Qed.

(** Case analysis on one turn of the loop run in hypothesis [H]. *)
Ltac loop_turn H ct d s :=
  rewrite retry_loop_unfold in H;
  let Hlt := fresh "Hlt" in
  let r := fresh "r" in let w := fresh "w" in
  let Eop := fresh "Eop" in let Enr := fresh "Enr" in
  let Eclk := fresh "Eclk" in
  destruct (Z.ltb_spec ct d) as [Hlt|Hlt];
  [ destruct (callable_object (env s)) as [r w] eqn:Eop;
    destruct (isinstance r NotReady_cls) eqn:Enr;
    [ match type of H with
      | context [clock_time ?c ?x] =>
          destruct (clock_time c x) as [[[?e|?t] ?c'] ?w'] eqn:Eclk
      end
    | ]
  | ].

(** What a run of the loop adds to the trace and to the channels. *)
Lemma retry_loop_effects fuel :
  forall deadline current_time tick_counter result (s s' : state) out,
    retry_loop fuel deadline current_time tick_counter result s = (out, s') ->
    exists ext,
      trace s' = (ext ++ trace s)%list /\
      stderr s' = stderr s /\
      stdout s' =
        stdout s ++ (if silent then ""
                     else markers_from (count tick_counter) (count_not_ready ext)) /\
      forall result' current_time' tick_counter',
        out = Returned (result', current_time', tick_counter') ->
        count tick_counter' = (count tick_counter + count_calls ext)%nat /\
        last_sample (ext ++ [EvTime current_time])%list = Some current_time'.
Proof.
  induction fuel as [|fuel IH]; intros d ct tc res s s' out H.
  - rewrite retry_loop_zero in H. exists [].
    destruct (ct <? d); inversion H; subst; cbn;
      repeat (conj; [reflexivity || (destruct silent; now rewrite string_app_nil_r)|]);
      intros ? ? ? Hr; inversion Hr; subst; split; [lia | reflexivity].
  - loop_turn H ct d s.
    + inversion H; subst; clear H. cbn.
      exists [EvTimeRaised e; EvSleep delay; EvCall r]. cbn.
      unfold count_not_ready. cbn. rewrite Enr. cbn.
      unfold progress_text, increment. cbn [count].
      repeat (conj; [reflexivity ||
        (destruct silent; cbn; now rewrite ?string_app_nil_r)|]).
      intros ? ? ? Hr; discriminate.
    + apply IH in H as [ext [Ht [He [Ho Hr]]]]. cbn in Ht, He, Ho.
      exists (ext ++ [EvTime t; EvSleep delay; EvCall r])%list.
      rewrite <- app_assoc. cbn.
      conj; [exact Ht|]. conj; [exact He|]. conj.
      * rewrite Ho, string_app_assoc. f_equal.
        unfold progress_text. destruct silent; [reflexivity|].
        rewrite count_not_ready_app. unfold count_not_ready at 2. cbn.
        rewrite Enr. cbn. rewrite Nat.add_1_r. cbn [markers_from].
        unfold increment. cbn [count].
        reflexivity.
      * intros res' ct' tc' Hout. destruct (Hr _ _ _ Hout) as [Hc Hl].
        split.
        -- rewrite Hc, count_calls_app. unfold increment. cbn. lia.
        -- rewrite <- Hl. clear.
           induction ext as [|[] ext IHe]; cbn; auto.
    + inversion H; subst; clear H. cbn.
      exists [EvCall r]. cbn. unfold count_not_ready. cbn. rewrite Enr. cbn.
      repeat (conj; [reflexivity || (destruct silent; now rewrite string_app_nil_r)|]).
      intros ? ? ? Hr; inversion Hr; subst. unfold increment. cbn.
      split; [lia | reflexivity].
    + inversion H; subst; clear H. exists []. cbn.
      repeat (conj; [reflexivity || (destruct silent; now rewrite string_app_nil_r)|]).
      intros ? ? ? Hr; inversion Hr; subst. split; [lia | reflexivity].
Qed.

(** The ways a session can go. *)
Lemma f_retry_inv fuel (s s' : state) out :
  f_retry fuel s = (out, s') ->
  (exists e c w,
      clock_time (clk s) (env s) = (inl e, c, w) /\
      out = Raised e /\
      s' = mkState c w (stdout s) (stderr s) (EvTimeRaised e :: trace s)) \/
  (exists start_time c w,
      clock_time (clk s) (env s) = (inr start_time, c, w) /\
      ((exists e, out = Raised e /\ s' = started s start_time c w /\
                  ~ start_message_ok start_time /\
                  start_text start_time = "") \/
       (exists lout s2,
           retry_loop fuel (start_time + timeout) start_time TickCounter_init
             None (out_to (started s start_time c w) (start_text start_time))
           = (lout, s2) /\
           match lout with
           | Returned locals => finish start_time locals s2 = (out, s')
           | Raised e => out = Raised e /\ s' = s2
           | OutOfFuel => out = OutOfFuel /\ s' = s2
           end))).
Proof.
  rewrite f_retry_phases. intros H.
  apply bind_inv in H as [[t0 [s0 [Ht H]]]|[[e [Ht He]]|[Ht _]]].
  - unfold time in Ht.
    destruct (clock_time (clk s) (env s)) as [[[e|t] c] w] eqn:Eclk;
      inversion Ht; subst; clear Ht.
    right. exists t0, c, w. split; [reflexivity|].
    apply bind_inv in H as [[[] [s1 [Ha H]]]|[[e [Ha He]]|[Ha _]]].
    + apply announce_start_inv in Ha as [[_ ->]|[e [He _]]]; [|discriminate].
      right.
      apply bind_inv in H as [[locals [s2 [Hl H]]]|[[e [Hl He]]|[Hl Ho]]].
      * exists (Returned locals), s2. split; assumption.
      * exists (Raised e), s'. split; [assumption | split; auto].
      * exists OutOfFuel, s'. split; [assumption | split; auto].
    + apply announce_start_inv in Ha as [[Hx _]|[e' [He' [-> [Hn Htx]]]]];
        [discriminate|].
      inversion He'; subst. left. exists e'. repeat split; auto.
    + apply announce_start_inv in Ha as [[Hx _]|[e' [He' _]]]; discriminate.
  - unfold time in Ht.
    destruct (clock_time (clk s) (env s)) as [[[e'|t] c] w] eqn:Eclk;
      inversion Ht; subst; clear Ht.
    left. do 3 eexists. split; [reflexivity | split; reflexivity].
  - unfold time in Ht.
    destruct (clock_time (clk s) (env s)) as [[[e'|t] c] w] eqn:Eclk;
      discriminate.
Qed.

(** The discipline of the loop: it is entered with a clock reading on
    top of the trace and with [result] holding the latest answer,
    which can only be a [NotReady]. *)
Lemma retry_loop_checked fuel :
  forall deadline current_time tick_counter result (s s' : state) out older,
    trace s = EvTime current_time :: older ->
    attempts_checked deadline (trace s) = true ->
    samples_after_sleep (trace s) = true ->
    nothing_after_deadline deadline (trace s) = true ->
    result = last_call (trace s) ->
    (forall r, result = Some r -> isinstance r NotReady_cls = true) ->
    retry_loop fuel deadline current_time tick_counter result s = (out, s') ->
    attempts_checked deadline (trace s') = true /\
    samples_after_sleep (trace s') = true /\
    nothing_after_deadline deadline (trace s') = true /\
    forall result' current_time' tick_counter',
      out = Returned (result', current_time', tick_counter') ->
      result' = last_call (trace s') /\
      last_sample (trace s') = Some current_time' /\
      (deadline <= current_time' ->
       forall r, result' = Some r -> isinstance r NotReady_cls = true) /\
      (current_time' < deadline ->
       exists r, result' = Some r /\ isinstance r NotReady_cls = false).
Proof.
  induction fuel as [|fuel IH];
    intros d ct tc res s s' out older Htr Hc Hs Hn Hres Hnr H.
  - rewrite retry_loop_zero in H.
    destruct (Z.ltb_spec ct d) as [Hlt|Hlt]; inversion H; subst; clear H;
      repeat (conj; [assumption|]).
    + intros ? ? ? Hr; discriminate.
    + intros ? ? ? Hr; inversion Hr; subst.
      rewrite Htr. cbn. rewrite Htr in Hnr.
      repeat (conj; [reflexivity|]). split; [auto | lia].
  - loop_turn H ct d s.
    + inversion H; subst; clear H. cbn. rewrite Htr in *.
      apply Z.ltb_lt in Hlt. cbn in *. rewrite Hlt, Hc, Hs. cbn.
      repeat (conj; [assumption || reflexivity|]).
      intros ? ? ? Hr; discriminate.
    + eapply IH in H; [exact H | reflexivity | | | | reflexivity | ];
        cbn; rewrite Htr in *; apply Z.ltb_lt in Hlt; cbn in *;
        rewrite ?Hlt; auto.
      intros r0 Hr0; inversion Hr0; subst; assumption.
    + inversion H; subst; clear H. cbn. rewrite Htr in *.
      pose proof Hlt as Hlt'. apply Z.ltb_lt in Hlt. cbn in *.
      rewrite Hlt, Hc. cbn.
      repeat (conj; [assumption || reflexivity|]).
      intros ? ? ? Hr; inversion Hr; subst.
      repeat (conj; [reflexivity|]). split; [lia | eauto].
    + inversion H; subst; clear H.
      repeat (conj; [assumption|]).
      intros ? ? ? Hr; inversion Hr; subst.
      rewrite Htr. cbn. rewrite Htr in Hnr.
      repeat (conj; [reflexivity|]). split; [auto | lia].
Qed.

(** A clock failure inside the loop is the outcome of the loop. *)
Lemma retry_loop_clock_error fuel :
  forall deadline current_time tick_counter result (s s' : state) out e,
    retry_loop fuel deadline current_time tick_counter result s = (out, s') ->
    In (EvTimeRaised e) (trace s') ->
    In (EvTimeRaised e) (trace s) \/ out = Raised e.
Proof.
  induction fuel as [|fuel IH]; intros d ct tc res s s' out e0 H Hin.
  - rewrite retry_loop_zero in H.
    destruct (ct <? d); inversion H; subst; auto.
  - loop_turn H ct d s.
    + inversion H; subst; clear H. cbn in Hin.
      destruct Hin as [Heq|[Heq|[Heq|Hin]]]; try discriminate; auto.
      inversion Heq; subst; auto.
    + destruct (IH _ _ _ _ _ _ _ _ H Hin) as [Hin'|Ho]; auto.
      cbn in Hin'.
      destruct Hin' as [Heq|[Heq|[Heq|Hin']]]; try discriminate; auto.
    + inversion H; subst; clear H. cbn in Hin.
      destruct Hin as [Heq|Hin]; try discriminate; auto.
    + inversion H; subst; auto.
Qed.

Lemma bind_returned {A B : Type} (m : M A) (k : A -> M B) (s s1 : state) a :
  m s = (Returned a, s1) -> bind m k s = k a s1.
Proof. cbn. now intros ->. Qed.

Lemma end_state_frame r total_time retry_count (s : state) :
  trace (end_state r total_time retry_count s) = trace s /\
  clk (end_state r total_time retry_count s) = clk s /\
  env (end_state r total_time retry_count s) = env s.
Proof.
  unfold end_state. destruct silent; [repeat split|].
  destruct (print_end_message format r total_time retry_count s)
    as [out s1] eqn:Ep.
  apply print_end_message_inv in Ep as [? [? [? _]]]. cbn. auto.
Qed.

(** ** The claims *)

(** The first attempt, when no substitution fails.  When the first
    clock reading succeeds, the timeout is positive, the substitutions
    the session performs on the start message and on a string payload
    (with total time 0 and one retry) do not raise, and the operation
    answers Success or plain Failure at once, then one turn of the loop
    is enough: the session returns that very result and the operation
    has been invoked exactly once. *)
Theorem first_attempt_terminal_returned_unchanged
    fuel (s : state) start_time c w r w' :
  clock_time (clk s) (env s) = (inr start_time, c, w) ->
  0 < timeout ->
  callable_object w = (r, w') ->
  isinstance r NotReady_cls = false ->
  start_message_ok start_time ->
  payload_ok r 0 1 ->
  exists s',
    f_retry (S fuel) s = (Returned r, s') /\
    count_calls (trace s') = S (count_calls (trace s)) /\
    env s' = w'.
Proof.
  intros Hclk Hpos Hop Hnr Hstart Hpay.
  rewrite f_retry_phases.
  erewrite bind_returned
    by (unfold time; rewrite Hclk; reflexivity).
  erewrite bind_returned by (apply announce_start_ok; assumption).
  erewrite bind_returned.
  2:{ rewrite retry_loop_unfold.
      destruct (Z.ltb_spec start_time (start_time + timeout)); [|lia].
      cbn [env out_to]. rewrite Hop, Hnr. reflexivity. }
  rewrite finish_ok
    by (rewrite Z.sub_diag; exact Hpay).
  eexists. split; [reflexivity|].
  match goal with
  | |- context [end_state ?a ?b ?d ?st] =>
      destruct (end_state_frame a b d st) as [-> [_ ->]]
  end.
  cbn. split; reflexivity.
Qed.

(** C3 (amended).  With a timeout that is not positive the deadline
    has passed at the first check, which comes before any attempt: the
    loop body is never entered, whatever the iteration budget, and the
    operation is not invoked at all. *)
Theorem no_attempt_when_timeout_not_positive fuel (s s' : state) out :
  timeout <= 0 ->
  f_retry fuel s = (out, s') ->
  count_calls (trace s') = count_calls (trace s) /\ out <> OutOfFuel.
Proof.
  intros Hto H.
  apply f_retry_inv in H
    as [[e [c [w [_ [-> ->]]]]]|[t0 [c [w [_ [[e [-> [-> _]]]|[lout [s2 [Hl H]]]]]]]]].
  - split; [reflexivity | discriminate].
  - split; [reflexivity | discriminate].
  - rewrite retry_loop_expired in Hl by lia.
    inversion Hl; subst; clear Hl.
    apply finish_inv in H as [Ht [_ [_ [Hne _]]]].
    rewrite Ht. split; [reflexivity | assumption].
Qed.


(** C4.  In a session that returns, started on an empty trace, the
    retry count handed to the end announcement is the number of
    invocations recorded, and the total time is the last clock reading
    minus the first. *)
Theorem attempt_count_and_total_time fuel (s s' : state) r :
  trace s = [] ->
  f_retry fuel s = (Returned r, s') ->
  exists start_time current_time s2,
    first_sample (trace s') = Some start_time /\
    last_sample (trace s') = Some current_time /\
    trace s2 = trace s' /\
    s' = end_state r (current_time - start_time) (count_calls (trace s')) s2 /\
    (silent = false ->
     print_end_message format r (current_time - start_time)
       (count_calls (trace s')) s2 = (Returned tt, s')).
Proof.
  intros Hnil H.
  apply f_retry_inv in H
    as [[e [c [w [_ [Hx _]]]]]|[t0 [c [w [_ [[e [Hx _]]|[lout [s2 [Hl H]]]]]]]]];
    try discriminate.
  pose proof (retry_loop_effects _ _ _ _ _ _ _ _ Hl) as [ext [Hext [_ [_ Hr]]]].
  cbn in Hext. rewrite Hnil in Hext.
  destruct lout as [[[res ct] tc]|e|]; [|destruct H; discriminate..].
  destruct (Hr _ _ _ eq_refl) as [Hc Hls]. cbn in Hc.
  apply finish_inv in H as [Ht [_ [_ [_ Hf]]]].
  destruct (Hf r eq_refl) as [-> [_ [Hs' Hp]]].
  assert (Hcalls : count_calls (trace s') = count tc).
  { rewrite Ht, Hext, count_calls_app, Hc. cbn. lia. }
  exists t0, ct, s2. rewrite Hcalls, Ht, Hext.
  split; [apply first_sample_snoc|]. split; [exact Hls|].
  split; [reflexivity|]. split; assumption.
Qed.

Lemma markers_if_not_silent (ticks n : nat) :
  silent = false ->
  (if silent then "" else markers_from ticks n) = markers_from ticks n.
Proof. now intros ->. Qed.

(** C6.  In a session that is not silent, started on an empty trace
    and past its first clock reading, standard output holds, after the
    start announcement, exactly one marker per NotReady answer, laid out
    as full lines of 80 markers each closed by a line break, followed by
    the markers that do not fill a line; the error channel is untouched
    up to there.  Whatever comes after is the end announcement, made
    with the total time and the number of invocations when the session
    returns. *)
Theorem progress_markers_wrap_at_80 fuel (s s' : state) out start_time :
  silent = false ->
  trace s = [] ->
  f_retry fuel s = (out, s') ->
  first_sample (trace s') = Some start_time ->
  let n := count_not_ready (trace s') in
  count_char "." (wrapped_markers n) = n /\
  exists s2 tail,
    stdout s2 = stdout s ++ start_text start_time ++ wrapped_markers n /\
    stderr s2 = stderr s /\
    stdout s' = stdout s2 ++ tail /\
    forall r,
      out = Returned r ->
      exists current_time,
        last_sample (trace s') = Some current_time /\
        print_end_message format r (current_time - start_time)
          (count_calls (trace s')) s2 = (Returned tt, s').
Proof.
  intros Hsilent Hnil H Hfirst n. subst n.
  split; [apply count_char_wrapped|].
  apply f_retry_inv in H
    as [[e [c [w [_ [-> ->]]]]]
       |[t0 [c [w [_ [[e [-> [-> [_ Htx]]]]|[lout [s2 [Hl H]]]]]]]]].
  - cbn in Hfirst. rewrite Hnil in Hfirst. discriminate.
  - cbn in Hfirst. rewrite Hnil in Hfirst. inversion Hfirst; subst.
    exists (started s start_time c w), "". cbn. rewrite Hnil, Htx. cbn.
    rewrite !string_app_nil_r. repeat (conj; [reflexivity|]).
    intros r Hr; discriminate.
  - pose proof (retry_loop_effects _ _ _ _ _ _ _ _ Hl)
      as [ext [Hext [Herr [Hout Hr]]]].
    cbn in Hext, Herr, Hout. rewrite Hnil in Hext.
    rewrite (markers_if_not_silent _ _ Hsilent) in Hout.
    assert (Hs2 : first_sample (trace s2) = Some t0)
      by (rewrite Hext; apply first_sample_snoc).
    assert (Hn2 : count_not_ready (trace s2) = count_not_ready ext)
      by (rewrite Hext, count_not_ready_app; cbn; lia).
    assert (Hstd : stdout s2 =
              stdout s ++ start_text t0
                       ++ wrapped_markers (count_not_ready (trace s2)))
      by (rewrite Hn2, Hout, markers_wrapped, string_app_assoc; reflexivity).
    destruct lout as [[[res ct] tc]|e|].
    + destruct (finish_stdout _ _ _ _ _ H) as [tail Htail].
      destruct (Hr _ _ _ eq_refl) as [Hc Hls]. cbn in Hc.
      apply finish_inv in H as [Ht [_ [_ [_ Hf]]]].
      rewrite Ht in *. rewrite Hs2 in Hfirst. injection Hfirst as ->.
      exists s2, tail. repeat (conj; [assumption|]).
      intros r Hret. destruct (Hf r Hret) as [-> [_ [_ Hp]]].
      exists ct. rewrite Hext. split; [exact Hls|].
      replace (count_calls (ext ++ [EvTime start_time])%list) with (count tc)
        by (rewrite count_calls_app, Hc; cbn; lia).
      apply Hp. exact Hsilent.
    + destruct H as [-> Hs']. rewrite Hs' in *. clear Hs'.
      rewrite Hs2 in Hfirst. injection Hfirst as ->.
      exists s2, "". rewrite string_app_nil_r.
      repeat (conj; [assumption || reflexivity|]).
      intros r Hret; discriminate.
    + destruct H as [-> Hs']. rewrite Hs' in *. clear Hs'.
      rewrite Hs2 in Hfirst. injection Hfirst as ->.
      exists s2, "". rewrite string_app_nil_r.
      repeat (conj; [assumption || reflexivity|]).
      intros r Hret; discriminate.
Qed.

(** The end announcement, when the substitution succeeds.  It always
    starts with a line break on standard output.  A payload without a
    [format] method gets
    nothing more, and no error.  A payload whose substitution with
    [total_time] and [retries] yields [text] is then printed: on
    standard output for Success, on the error channel followed by the
    giving-up suffix for NotReady, on the error channel as it is for
    plain Failure. *)
Theorem end_message_routing (r : Result) total_time retry_count (s : state) :
  (hasattr_format (value r) = false ->
   print_end_message format r total_time retry_count s
   = (Returned tt, out_to s newline)) /\
  (forall text,
      value_format format (value r) (end_kwargs total_time retry_count)
      = inr text ->
      print_end_message format r total_time retry_count s
      = (Returned tt,
         match r with
         | Success _ => out_to (out_to s newline) (text ++ newline)
         | NotReady _ =>
             err_to (out_to s newline) ((text ++ "  Giving up.") ++ newline)
         | Failure _ => err_to (out_to s newline) (text ++ newline)
         end)).
Proof.
  split.
  - intros Hh. rewrite print_end_message_run. cbn. now rewrite Hh.
  - intros text Hf. rewrite print_end_message_run. cbn. rewrite Hf.
    destruct (value r) as [t|z|] eqn:Ev; [reflexivity | discriminate..].
Qed.

(** C9.  A NotReady is an instance of Failure and never counts as
    succeeded; only a Success does.  Yet the loop tells the two apart:
    on an answer obtained below the deadline it sleeps, reads the
    clock and goes on exactly when the answer is a NotReady, and
    leaves at once with any other answer, a plain Failure included. *)
Theorem not_ready_is_failure_yet_retried
    (m : pyval) fuel deadline current_time tick_counter result (s : state) r w :
  isinstance (NotReady m) Failure_cls = true /\
  succeeded (NotReady m) = false /\
  (succeeded r = true <-> exists v, r = Success v) /\
  (isinstance r NotReady_cls = true <-> exists v, r = NotReady v) /\
  isinstance (Failure m) NotReady_cls = false /\
  (current_time < deadline ->
   callable_object (env s) = (r, w) ->
   retry_loop (S fuel) deadline current_time tick_counter result s =
   if isinstance r NotReady_cls then
     match clock_time (clock_sleep delay (clk s)) w with
     | (inr t, c, w') =>
         retry_loop fuel deadline t (increment tick_counter) (Some r)
           (mkState c w' (stdout s ++ progress_text (increment tick_counter))
                    (stderr s)
                    (EvTime t :: EvSleep delay :: EvCall r :: trace s))
     | (inl e, c, w') =>
         (Raised e,
          mkState c w' (stdout s ++ progress_text (increment tick_counter))
                  (stderr s)
                  (EvTimeRaised e :: EvSleep delay :: EvCall r :: trace s))
     end
   else
     (Returned (Some r, current_time, increment tick_counter),
      mkState (clk s) w (stdout s) (stderr s) (EvCall r :: trace s))).
Proof.
  repeat (conj; [try reflexivity|]).
  - destruct r; cbn; split; intros H; try discriminate; eauto;
      destruct H as [v H]; discriminate.
  - destruct r; cbn; split; intros H; try discriminate; eauto;
      destruct H as [v H]; discriminate.
  - intros Hlt Hop. rewrite retry_loop_unfold.
    destruct (Z.ltb_spec current_time deadline); [|lia].
    rewrite Hop. reflexivity.
Qed.

(** C8.  The engine has no handler around the clock: in a session
    started on an empty trace, an error raised by any clock reading,
    the first one or one inside the loop, is the outcome of the whole
    session, so no Result is returned. *)
Theorem clock_error_propagates fuel (s s' : state) out e :
  trace s = [] ->
  f_retry fuel s = (out, s') ->
  In (EvTimeRaised e) (trace s') ->
  out = Raised e.
Proof.
  intros Hnil H Hin.
  apply f_retry_inv in H
    as [[e' [c [w [_ [-> ->]]]]]|[t0 [c [w [_ [[e' [-> [-> _]]]|[lout [s2 [Hl H]]]]]]]]].
  - cbn in Hin. rewrite Hnil in Hin. destruct Hin as [Heq|[]].
    inversion Heq; reflexivity.
  - cbn in Hin. rewrite Hnil in Hin. destruct Hin as [Heq|[]]. discriminate.
  - assert (Hin2 : In (EvTimeRaised e) (trace s2)).
    { destruct lout as [locals|e'|].
      - destruct locals as [[res ct] tc].
        apply finish_inv in H as [Ht _]. now rewrite <- Ht.
      - destruct H as [_ ->]. exact Hin.
      - destruct H as [_ ->]. exact Hin. }
    destruct (retry_loop_clock_error _ _ _ _ _ _ _ _ _ Hl Hin2) as [Hin0|Ho].
    + cbn in Hin0. rewrite Hnil in Hin0. destruct Hin0 as [Heq|[]]. discriminate.
    + subst lout. destruct H as [-> _]. reflexivity.
Qed.

End EngineFacts.

(** ** Sessions against the stopped clock *)

Section StoppedSessions.

Context {W : Type}.
Variable format : string -> kwargs -> exn + string.
Variable callable_object : W -> Result * W.
Variable timeout delay : Z.
Variable start_message : option string.
Variable silent : bool.

(** Every turn of the loop uses up one reading of the stopped clock,
    so a budget above the readings left is never exhausted. *)
Lemma retry_loop_stopped_terminates fuel :
  forall deadline current_time tick_counter result
         (s : state (StoppedClock.t W) W),
    (StoppedClock.remaining (clk s) < fuel)%nat ->
    fst (retry_loop callable_object delay silent fuel deadline current_time
           tick_counter result s) <> OutOfFuel.
Proof.
  induction fuel as [|fuel IH]; intros d ct tc res s Hrem; [lia|].
  rewrite retry_loop_unfold.
  destruct (ct <? d); [|discriminate].
  destruct (callable_object (env s)) as [r w].
  destruct (isinstance r NotReady_cls); [|discriminate].
  cbn [clock_time clock_sleep StoppedClock.clock].
  unfold StoppedClock.sleep, StoppedClock.time.
  unfold StoppedClock.remaining in Hrem.
  destruct (StoppedClock.current (clk s)) as [[|[v|v ex|v f] rest]|];
    try discriminate; apply IH; cbn in *; lia.
Qed.

Lemma f_retry_stopped_terminates fuel (s : state (StoppedClock.t W) W) :
  (StoppedClock.remaining (clk s) <= fuel)%nat ->
  fst (f_retry format callable_object timeout delay start_message silent
         fuel s) <> OutOfFuel.
Proof.
  intros Hrem.
  destruct (f_retry format callable_object timeout delay start_message silent
              fuel s) as [out s'] eqn:H.
  cbn [fst].
  apply f_retry_inv in H
    as [[e [c [w [_ [-> _]]]]]|[t0 [c [w [Hclk [[e [-> _]]|[lout [s2 [Hl H]]]]]]]]];
    try discriminate.
  pose proof (retry_loop_stopped_terminates fuel (t0 + timeout) t0
                TickCounter_init None
                (out_to (started s t0 c w) (start_text format start_message silent t0)))
    as Hterm.
  rewrite Hl in Hterm. cbn [fst] in Hterm.
  destruct lout as [[[res ct] tc]|e|].
  - apply finish_inv in H as [_ [_ [_ [Hne _]]]]. exact Hne.
  - destruct H as [-> _]. discriminate.
  - exfalso. apply Hterm; [|reflexivity].
    cbn [clk out_to started].
    cbn [clock_time StoppedClock.clock] in Hclk.
    unfold StoppedClock.time in Hclk. unfold StoppedClock.remaining in *.
    destruct (StoppedClock.current (clk s)) as [[|[v|v ex|v f] rest]|];
      inversion Hclk; subst; cbn in *; lia.
Qed.

End StoppedSessions.

(** C5.  With clock readings 200, 250, 300, 350, 500, 600, a timeout of
    200 and an operation that always answers NotReady, any budget of at
    least four turns gives: a NotReady result, four invocations, first
    reading 200 and last reading 500 (total time 300), four markers and
    the closing line break on standard output, and on the error channel
    the substituted message ending in the giving-up suffix. *)
Theorem scenario_gives_up_after_four_attempts (extra : nat) :
  let run :=
    retry PyFormat.format check_value (Some 200) None None None (4 + extra)
      (initial_state test_clock (Some false)) in
  fst run =
    Returned (NotReady (PStr
      "Check still not ready after {total_time} seconds and {retries} retries")) /\
  count_calls (trace (snd run)) = 4%nat /\
  first_sample (trace (snd run)) = Some 200 /\
  last_sample (trace (snd run)) = Some 500 /\
  stdout (snd run) = "...." ++ newline /\
  count_char "." (stdout (snd run)) = 4%nat /\
  stderr (snd run) =
    "Check still not ready after 300 seconds and 4 retries  Giving up." ++ newline.
Proof. destruct extra; vm_compute; repeat split. Qed.

(** C10.  Decorating [f] with [retry_decorator] called on some keyword
    arguments is the very wrapper [retry] builds from [f] and the same
    keyword arguments, omitted ones included: the two run alike on every
    budget and state. *)
Theorem retry_decorator_same_as_retry
    {C W : Type} {clock_ops : Clock C W}
    (format : string -> kwargs -> exn + string) (f : W -> Result * W)
    (timeout delay : option Z) (start_message : option (option string))
    (silent : option bool) :
  retry_decorator format timeout delay start_message silent f =
  retry format f timeout delay start_message silent.
Proof.
  unfold retry_decorator, retry.
  destruct timeout, delay, start_message, silent; reflexivity.
Qed.

(** ** The theorems at work on the sessions of the test suite *)

Lemma first_attempt_terminal_witness :
  0 < 200 /\
  check_value (Some true) = (success_message, Some true) /\
  exists s',
    test_session 200 (Some true) 1 = (Returned success_message, s') /\
    count_calls (trace s') = 1%nat /\ env s' = Some true.
Proof.
  split; [lia|]. split; [reflexivity|].
  apply (first_attempt_terminal_returned_unchanged PyFormat.format check_value
           200 4 None false 0 (initial_state test_clock (Some true))
           200
           (StoppedClock.mk (plain_times [200; 250; 300; 350; 500; 600])
              (Some (plain_times [250; 300; 350; 500; 600])))
           (Some true) success_message (Some true)).
  - reflexivity.
  - lia.
  - reflexivity.
  - reflexivity.
  - intros msg H. discriminate.
  - intros template H. inversion H; subst. eexists. reflexivity.
Defined.

(** C1, where the code departs from it.  The operation answers
    Success on the first attempt, well before the deadline, with a
    payload holding a field that is no keyword of the substitution: the
    end announcement raises KeyError after that one invocation and the
    session returns nothing, against the docstring of [retry] (values of
    Success or Failure are returned immediately). *)
Lemma first_attempt_terminal_counterexample :
  let op := fun w : unit => (Success (PStr "{x}"), w) in
  let clock := StoppedClock.set_times (plain_times [200; 250]) StoppedClock.init in
  let run :=
    retry PyFormat.format op (Some 200) None None None 5 (initial_state clock tt) in
  fst run = Raised (KeyError "x") /\
  count_calls (trace (snd run)) = 1%nat /\
  first_sample (trace (snd run)) = Some 200 /\
  ~ exists s', run = (Returned (Success (PStr "{x}")), s').
Proof.
  vm_compute. repeat split. intros [s' H]. discriminate.
Qed.


Lemma no_attempt_witness :
  let run := test_session 0 (Some true) 10 in
  0 <= 0 /\ count_calls (trace (snd run)) = 0%nat /\ fst run <> OutOfFuel.
Proof.
  intros run. split; [lia|].
  apply (no_attempt_when_timeout_not_positive PyFormat.format check_value
           0 4 None false 10 (initial_state test_clock (Some true))
           (snd run) (fst run)).
  - lia.
  - apply surjective_pairing.
Defined.

(** With [timeout=0] the deadline equals the first reading: the
    operation, ready to answer Success, is never invoked, and reading
    the unbound [result] raises. *)
Lemma no_attempt_counterexample :
  let run :=
    retry PyFormat.format check_value (Some 0) None None None 10
      (initial_state test_clock (Some true)) in
  fst run = Raised (UnboundLocalError "result") /\
  count_calls (trace (snd run)) = 0%nat /\
  rev (trace (snd run)) = [EvTime 200].
Proof. vm_compute. repeat split. Qed.

Lemma attempt_count_witness :
  let run := test_session 200 (Some false) 10 in
  exists start_time current_time s2,
    first_sample (trace (snd run)) = Some start_time /\
    last_sample (trace (snd run)) = Some current_time /\
    trace s2 = trace (snd run) /\
    snd run =
      end_state PyFormat.format false not_ready_message
        (current_time - start_time) (count_calls (trace (snd run))) s2 /\
    (false = false ->
     print_end_message PyFormat.format not_ready_message
       (current_time - start_time) (count_calls (trace (snd run))) s2
     = (Returned tt, snd run)).
Proof.
  intros run.
  apply (attempt_count_and_total_time PyFormat.format check_value
           200 4 None false 10 (initial_state test_clock (Some false))
           (snd run) not_ready_message).
  - reflexivity.
  - vm_compute. reflexivity.
Defined.

Lemma progress_markers_witness :
  let run :=
    f_retry PyFormat.format check_value 200 4 None false 300
      (initial_state wrap_clock (Some false)) in
  first_sample (trace (snd run)) = Some 1 /\
  count_not_ready (trace (snd run)) = 200%nat /\
  count_char "." (wrapped_markers 200) = 200%nat /\
  exists s2 tail,
    stdout s2 = wrapped_markers 200 /\
    stderr s2 = "" /\
    stdout (snd run) = stdout s2 ++ tail /\
    print_end_message PyFormat.format not_ready_message (201 - 1) 200 s2
    = (Returned tt, snd run).
Proof.
  intros run.
  assert (Hfirst : first_sample (trace (snd run)) = Some 1)
    by (vm_compute; reflexivity).
  assert (Hn : count_not_ready (trace (snd run)) = 200%nat)
    by (vm_compute; reflexivity).
  assert (Hc : count_calls (trace (snd run)) = 200%nat)
    by (vm_compute; reflexivity).
  assert (Hout : fst run = Returned not_ready_message)
    by (vm_compute; reflexivity).
  assert (Hlast : last_sample (trace (snd run)) = Some 201)
    by (vm_compute; reflexivity).
  split; [exact Hfirst|]. split; [exact Hn|].
  destruct (progress_markers_wrap_at_80 PyFormat.format check_value
              200 4 None false 300 (initial_state wrap_clock (Some false))
              (snd run) (fst run) 1 eq_refl eq_refl (surjective_pairing run)
              Hfirst)
    as [Hcount [s2 [tail [Hs2 [He2 [Htail Hret]]]]]].
  rewrite Hn in Hcount, Hs2.
  split; [exact Hcount|].
  exists s2, tail.
  split; [exact Hs2|]. split; [exact He2|]. split; [exact Htail|].
  destruct (Hret not_ready_message Hout) as [ct [Hct Hp]].
  rewrite Hlast in Hct. inversion Hct; subst ct.
  rewrite Hc in Hp. exact Hp.
Defined.

(** The same session, looked at directly: two hundred markers, that is
    two full lines and forty markers more, then the closing line break. *)
Example wrap_session_output :
  let run :=
    f_retry PyFormat.format check_value 200 4 None false 300
      (initial_state wrap_clock (Some false)) in
  fst run = Returned not_ready_message /\
  count_not_ready (trace (snd run)) = 200%nat /\
  stdout (snd run) = full_lines 2 ++ dots 40 ++ newline.
Proof. vm_compute. repeat split. Qed.

Lemma end_message_witness :
  let s := initial_state test_clock (Some false) in
  value_format PyFormat.format (value not_ready_message) (end_kwargs 300 4)
  = inr "Check still not ready after 300 seconds and 4 retries" /\
  print_end_message PyFormat.format not_ready_message 300 4 s
  = (Returned tt,
     err_to (out_to s newline)
       (("Check still not ready after 300 seconds and 4 retries"
         ++ "  Giving up.") ++ newline)).
Proof.
  intros s. split; [reflexivity|].
  apply (proj2 (end_message_routing PyFormat.format not_ready_message 300 4 s)
           "Check still not ready after 300 seconds and 4 retries").
  reflexivity.
Defined.

Lemma clock_error_witness :
  let run :=
    f_retry PyFormat.format check_value 200 4 None false 10
      (initial_state failing_clock (Some false)) in
  In (EvTimeRaised (Injected "boom")) (trace (snd run)) /\
  fst run = Raised (Injected "boom").
Proof.
  intros run.
  assert (Hin : In (EvTimeRaised (Injected "boom")) (trace (snd run)))
    by (vm_compute; left; reflexivity).
  split; [exact Hin|].
  apply (clock_error_propagates PyFormat.format check_value 200 4 None false
           10 (initial_state failing_clock (Some false)) (snd run) (fst run)
           (Injected "boom")).
  - reflexivity.
  - apply surjective_pairing.
  - exact Hin.
Defined.

Lemma not_ready_retried_witness :
  let s := initial_state test_clock (Some false) in
  200 < 400 /\
  retry_loop check_value 4 false 1 400 200 TickCounter_init None s
  = (OutOfFuel,
     mkState
       (StoppedClock.mk (plain_times [200; 250; 300; 350; 500; 600])
          (Some (plain_times [250; 300; 350; 500; 600])))
       (Some false) "." ""
       [EvTime 200; EvSleep 4; EvCall not_ready_message]).
Proof.
  intros s. split; [lia|].
  destruct (not_ready_is_failure_yet_retried check_value 4 false PNone 0 400 200
              TickCounter_init None s not_ready_message (Some false))
    as [_ [_ [_ [_ [_ H]]]]].
  rewrite H; [reflexivity | lia | reflexivity].
Defined.

(** ** The other sessions of the test suite *)

(** [test_retry_succeed_on_3rd_try] *)
Example session_succeeds_on_third_attempt :
  let run :=
    retry PyFormat.format check_value (Some 200) None None None 10
      (initial_state (clock_with_effect (Some true)) (Some false)) in
  fst run = Returned success_message /\
  count_calls (trace (snd run)) = 3%nat /\
  stdout (snd run) =
    ".." ++ newline
         ++ "Check succeeded after 100 seconds and 3 retries" ++ newline /\
  stderr (snd run) = "".
Proof. vm_compute. repeat split. Qed.

(** [test_retry_not_ready_failure] *)
Example session_fails_on_third_attempt :
  let run :=
    retry PyFormat.format check_value (Some 200) None None None 10
      (initial_state (clock_with_effect None) (Some false)) in
  fst run =
    Returned (Failure (PStr
      "Check failed after {total_time} seconds and {retries} retries")) /\
  count_calls (trace (snd run)) = 3%nat /\
  stdout (snd run) = ".." ++ newline /\
  stderr (snd run) =
    "Check failed after 100 seconds and 3 retries" ++ newline.
Proof. vm_compute. repeat split. Qed.

(** [test_retry_decorator_fails_after_5_times] *)
Example decorated_session_gives_up :
  let run :=
    retry_decorator PyFormat.format (Some 200) None None None check_value 10
      (initial_state test_clock (Some false)) in
  fst run = Returned not_ready_message /\
  stdout (snd run) = "...." ++ newline /\
  stderr (snd run) =
    "Check still not ready after 300 seconds and 4 retries  Giving up."
      ++ newline.
Proof. vm_compute. repeat split. Qed.

(** A silent session substitutes a string payload all the same, and
    drops the text: lines 187 and 188 of [retry.py]. *)
Example silent_session_substitutes_payload :
  let op := fun w : unit => (Success (PStr "{x}"), w) in
  let clock := StoppedClock.set_times (plain_times [200; 250]) StoppedClock.init in
  let run :=
    retry PyFormat.format op (Some 200) None None (Some true) 5
      (initial_state clock tt) in
  fst run = Raised (KeyError "x") /\ stdout (snd run) = "" /\ stderr (snd run) = "".
Proof. vm_compute. repeat split. Qed.

(** A start message with a field that is no keyword of the call stops
    the session before the first attempt. *)
Example start_message_can_raise :
  let clock := StoppedClock.set_times (plain_times [200; 250]) StoppedClock.init in
  let run :=
    retry PyFormat.format check_value (Some 200) None
      (Some (Some "Started at {start_time} by {user}")) None 5
      (initial_state clock (Some true)) in
  fst run = Raised (KeyError "user") /\ count_calls (trace (snd run)) = 0%nat.
Proof. vm_compute. repeat split. Qed.

(** ** Further properties of the engine *)

Lemma count_samples_cons (e : event) (tr : list event) :
  count_samples (e :: tr) = ((if is_sample e then 1 else 0) + count_samples tr)%nat.
Proof. unfold count_samples. cbn. destruct (is_sample e); reflexivity. Qed.

Lemma count_sleeps_cons (e : event) (tr : list event) :
  count_sleeps (e :: tr) = ((if is_sleep e then 1 else 0) + count_sleeps tr)%nat.
Proof. unfold count_sleeps. cbn. destruct (is_sleep e); reflexivity. Qed.

Lemma count_calls_cons (e : event) (tr : list event) :
  count_calls (e :: tr) = ((if is_call e then 1 else 0) + count_calls tr)%nat.
Proof. unfold count_calls. cbn. destruct (is_call e); reflexivity. Qed.

Lemma count_not_ready_cons (e : event) (tr : list event) :
  count_not_ready (e :: tr)
  = ((if is_not_ready_call e then 1 else 0) + count_not_ready tr)%nat.
Proof. unfold count_not_ready. cbn. destruct (is_not_ready_call e); reflexivity. Qed.

Section EngineExtras.

Context {C W : Type} {clock_ops : Clock C W}.
Variable format : string -> kwargs -> exn + string.
Variable callable_object : W -> Result * W.
Variable timeout delay : Z.
Variable start_message : option string.
Variable silent : bool.

Abbreviation state := (state C W).
Abbreviation retry_loop := (retry_loop callable_object delay silent).
Abbreviation f_retry :=
  (f_retry format callable_object timeout delay start_message silent).
Abbreviation finish := (finish format silent).
Abbreviation start_text := (start_text format start_message silent).

(** Case analysis on one turn of the loop run in hypothesis [H]. *)
Ltac turn H ct d s :=
  rewrite retry_loop_unfold in H;
  let Hlt := fresh "Hlt" in
  let r := fresh "r" in let w := fresh "w" in
  let Eop := fresh "Eop" in let Enr := fresh "Enr" in
  let Eclk := fresh "Eclk" in
  destruct (Z.ltb_spec ct d) as [Hlt|Hlt];
  [ destruct (callable_object (env s)) as [r w] eqn:Eop;
    destruct (isinstance r NotReady_cls) eqn:Enr;
    [ match type of H with
      | context [clock_time ?c ?x] =>
          destruct (clock_time c x) as [[[?e|?t] ?c'] ?w'] eqn:Eclk
      end
    | ]
  | ].

(** Counting over one run of the loop.  Whatever the outcome, a sleep
    of [delay] follows each NotReady answer and nothing else; when the
    loop is left in the normal way, each NotReady answer was followed by
    one clock reading, and the answers that were not NotReady number one
    if the loop was left below the deadline and none otherwise. *)
Lemma retry_loop_accounting fuel :
  forall deadline current_time tick_counter result (s s' : state) out,
    sleeps_after_not_ready delay (trace s) = true ->
    retry_loop fuel deadline current_time tick_counter result s = (out, s') ->
    sleeps_after_not_ready delay (trace s') = true /\
    (count_sleeps (trace s') + count_not_ready (trace s)
     = count_sleeps (trace s) + count_not_ready (trace s'))%nat /\
    forall result' current_time' tick_counter',
      out = Returned (result', current_time', tick_counter') ->
      (count_samples (trace s') + count_not_ready (trace s)
       = count_samples (trace s) + count_not_ready (trace s'))%nat /\
      (count_calls (trace s') + count_not_ready (trace s)
       = count_calls (trace s) + count_not_ready (trace s')
         + (if (current_time' <? deadline)%Z then 1 else 0))%nat.
Proof.
  induction fuel as [|fuel IH]; intros d ct tc res s s' out Hsl H.
  - rewrite retry_loop_zero in H.
    destruct (Z.ltb_spec ct d) as [Hlt|Hlt]; inversion H; subst; clear H;
      (split; [assumption|]); (split; [lia|]).
    + intros ? ? ? Hr; discriminate.
    + intros ? ? ? Hr; inversion Hr; subst.
      destruct (Z.ltb_spec current_time' d); lia.
  - turn H ct d s.
    + inversion H; subst; clear H. cbn [trace].
      rewrite !count_sleeps_cons, !count_not_ready_cons. cbn [is_sleep is_not_ready_call].
      rewrite Enr. cbn [sleeps_after_not_ready]. rewrite Z.eqb_refl, Enr, Hsl.
      split; [reflexivity|]. split; [lia|].
      intros ? ? ? Hr; discriminate.
    + apply IH in H.
      2:{ cbn [trace sleeps_after_not_ready]. rewrite Z.eqb_refl, Enr, Hsl.
          reflexivity. }
      cbn [trace] in H.
      rewrite !count_sleeps_cons, !count_not_ready_cons, !count_samples_cons,
        !count_calls_cons in H.
      cbn [is_sleep is_not_ready_call is_sample is_call] in H. rewrite Enr in H.
      destruct H as [H1 [H2 H3]].
      split; [exact H1|]. split; [lia|].
      intros res' ct' tc' Hr. destruct (H3 _ _ _ Hr) as [H4 H5].
      split; lia.
    + inversion H; subst; clear H. cbn [trace].
      rewrite !count_sleeps_cons, !count_not_ready_cons, !count_samples_cons,
        !count_calls_cons.
      cbn [is_sleep is_not_ready_call is_sample is_call sleeps_after_not_ready].
      rewrite Enr.
      split; [exact Hsl|]. split; [lia|].
      intros ? ? ? Hr; inversion Hr; subst.
      destruct (Z.ltb_spec current_time' d); lia.
    + inversion H; subst; clear H.
      split; [exact Hsl|]. split; [lia|].
      intros ? ? ? Hr; inversion Hr; subst.
      destruct (Z.ltb_spec current_time' d); lia.
Qed.

(** A session that returns, taken apart. *)
Lemma f_retry_returned fuel (s s' : state) r :
  f_retry fuel s = (Returned r, s') ->
  exists start_time c w current_time tick_counter s2,
    clock_time (clk s) (env s) = (inr start_time, c, w) /\
    retry_loop fuel (start_time + timeout) start_time TickCounter_init None
      (out_to (started s start_time c w) (start_text start_time))
    = (Returned (Some r, current_time, tick_counter), s2) /\
    finish start_time (Some r, current_time, tick_counter) s2 = (Returned r, s') /\
    trace s' = trace s2.
Proof.
  intros H.
  apply f_retry_inv in H
    as [[e [c [w [_ [Hx _]]]]]|[t0 [c [w [Hclk [[e [Hx _]]|[lout [s2 [Hl H]]]]]]]]];
    try discriminate.
  destruct lout as [[[res ct] tc]|e|]; [|destruct H; discriminate..].
  pose proof H as H0. apply finish_inv in H0 as [Ht [_ [_ [_ Hf]]]].
  destruct (Hf r eq_refl) as [Hres _]. rewrite Hres in *.
  exists t0, c, w, ct, tc, s2. repeat (conj; [assumption|]). exact Ht.
Qed.

(** The result a session returns is the answer of its last attempt,
    payload and all. *)
Theorem returned_result_is_last_answer fuel (s s' : state) r :
  trace s = [] ->
  f_retry fuel s = (Returned r, s') ->
  last_call (trace s') = Some r.
Proof.
  intros Hnil H.
  apply f_retry_returned in H
    as [t0 [c [w [ct [tc [s2 [_ [Hl [_ Ht]]]]]]]]].
  eapply retry_loop_checked in Hl;
    [ | cbn; rewrite Hnil; reflexivity | cbn; rewrite Hnil; reflexivity ..
      | discriminate ].
  destruct Hl as [_ [_ [_ Hr]]].
  destruct (Hr _ _ _ eq_refl) as [Hlc _].
  rewrite Ht. symmetry. exact Hlc.
Qed.

(** A session gives up, returning NotReady, exactly when its last clock
    reading has reached the deadline; it returns Success or plain
    Failure exactly when that reading is still below the deadline. *)
Theorem gives_up_exactly_at_deadline
    fuel (s s' : state) r start_time current_time :
  trace s = [] ->
  f_retry fuel s = (Returned r, s') ->
  first_sample (trace s') = Some start_time ->
  last_sample (trace s') = Some current_time ->
  (isinstance r NotReady_cls = true <-> start_time + timeout <= current_time).
Proof.
  intros Hnil H Hfirst Hlast.
  apply f_retry_returned in H
    as [t0 [c [w [ct [tc [s2 [_ [Hl [_ Ht]]]]]]]]].
  pose proof Hl as Hl0. apply retry_loop_effects in Hl0 as [ext [Hext _]].
  cbn in Hext. rewrite Hnil in Hext.
  eapply retry_loop_checked in Hl;
    [ | cbn; rewrite Hnil; reflexivity | cbn; rewrite Hnil; reflexivity ..
      | discriminate ].
  destruct Hl as [_ [_ [_ Hr]]].
  destruct (Hr _ _ _ eq_refl) as [_ [Hls [Hge Hlt]]].
  rewrite Ht in Hfirst, Hlast.
  rewrite Hext, first_sample_snoc in Hfirst. injection Hfirst as <-.
  rewrite Hls in Hlast. injection Hlast as <-.
  split.
  - intros Hnr. destruct (Z.lt_ge_cases ct (t0 + timeout)) as [Hc|Hc]; [|exact Hc].
    destruct (Hlt Hc) as [r' [Hr' Hn]]. injection Hr' as <-. congruence.
  - intros Hc. apply (Hge Hc). reflexivity.
Qed.

(** The books of a session that returns: one clock reading at entry
    and one after each NotReady answer, one sleep of [delay] after each
    NotReady answer and no other, and as many attempts as NotReady
    answers, plus the last one when the result is not a NotReady. *)
Theorem session_accounting fuel (s s' : state) r :
  trace s = [] ->
  f_retry fuel s = (Returned r, s') ->
  count_samples (trace s') = (count_not_ready (trace s') + 1)%nat /\
  count_sleeps (trace s') = count_not_ready (trace s') /\
  sleeps_after_not_ready delay (trace s') = true /\
  count_calls (trace s')
  = (count_not_ready (trace s') + (if isinstance r NotReady_cls then 0 else 1))%nat.
Proof.
  intros Hnil H.
  apply f_retry_returned in H
    as [t0 [c [w [ct [tc [s2 [_ [Hl [_ Ht]]]]]]]]].
  pose proof Hl as Hacc.
  apply retry_loop_accounting in Hacc; [|cbn; rewrite Hnil; reflexivity].
  eapply retry_loop_checked in Hl;
    [ | cbn; rewrite Hnil; reflexivity | cbn; rewrite Hnil; reflexivity ..
      | discriminate ].
  destruct Hl as [_ [_ [_ Hr]]].
  destruct (Hr _ _ _ eq_refl) as [_ [_ [Hge Hlt]]].
  rewrite Ht.
  revert Hacc. cbn [trace out_to started]. rewrite Hnil.
  intros [Hs [Hsl Hret]]. destruct (Hret _ _ _ eq_refl) as [Hsa Hca].
  cbn in Hsl, Hsa, Hca.
  split; [lia|]. split; [lia|]. split; [exact Hs|].
  destruct (Z.ltb_spec ct (t0 + timeout)) as [Hc|Hc].
  - destruct (Hlt Hc) as [r' [Hr' Hn]]. injection Hr' as <-. rewrite Hn. lia.
  - rewrite (Hge Hc r eq_refl). lia.
Qed.

Lemma start_text_silent start_time : silent = true -> start_text start_time = "".
Proof.
  intros Hs. unfold start_text. rewrite Hs.
  now rewrite andb_false_r.
Qed.

(** A silent session writes nothing, on either channel, however it
    ends. *)
Theorem silent_session_writes_nothing fuel (s s' : state) out :
  silent = true ->
  f_retry fuel s = (out, s') ->
  stdout s' = stdout s /\ stderr s' = stderr s.
Proof.
  intros Hsilent H.
  apply f_retry_inv in H
    as [[e [c [w [_ [_ ->]]]]]
       |[t0 [c [w [_ [[e [_ [-> _]]]|[lout [s2 [Hl H]]]]]]]]].
  - split; reflexivity.
  - split; reflexivity.
  - pose proof Hl as Hl0. apply retry_loop_effects in Hl0 as [ext [_ [Herr [Hout _]]]].
    rewrite (start_text_silent _ Hsilent) in Hout.
    cbn in Herr, Hout.
    assert (Hout' : stdout s2 = stdout s).
    { rewrite Hout. destruct silent; [|discriminate].
      now rewrite !string_app_nil_r. }
    destruct lout as [[[res ct] tc]|e|].
    + rewrite finish_run in H. destruct res as [r|].
      * cbn zeta in H.
        assert (H' : check_payload format r (ct - t0) (count tc) s2 = (out, s')).
        { rewrite <- H. destruct silent; [reflexivity | discriminate]. }
        apply check_payload_inv in H' as [-> _]. split; assumption.
      * inversion H; subst s'. split; assumption.
    + destruct H as [_ ->]. split; assumption.
    + destruct H as [_ ->]. split; assumption.
Qed.

Lemma end_state_success_stderr v total_time retry_count (s : state) :
  stderr (end_state format silent (Success v) total_time retry_count s) = stderr s.
Proof.
  unfold end_state. destruct silent; [reflexivity|].
  rewrite print_end_message_run. cbn.
  destruct (hasattr_format v); [|reflexivity].
  destruct (value_format format v _); reflexivity.
Qed.

(** A session that returns Success leaves the error channel as it
    found it. *)
Theorem success_spares_error_channel fuel (s s' : state) v :
  f_retry fuel s = (Returned (Success v), s') ->
  stderr s' = stderr s.
Proof.
  intros H.
  apply f_retry_returned in H
    as [t0 [c [w [ct [tc [s2 [_ [Hl [Hf _]]]]]]]]].
  pose proof Hl as Hl0. apply retry_loop_effects in Hl0 as [ext [_ [Herr _]]].
  cbn in Herr.
  apply finish_inv in Hf as [_ [_ [_ [_ Hf]]]].
  destruct (Hf _ eq_refl) as [_ [_ [-> _]]].
  rewrite end_state_success_stderr. exact Herr.
Qed.

(** [print_start_message]: a message without the placeholder goes out
    as it is, braces and all, and cannot fail; one with the placeholder
    goes out substituted, or raises what the substitution raises and
    prints nothing.  The error channel is never used. *)
Theorem print_start_message_cases (msg : string) (start_time : Z) (s : state) :
  (contains "{start_time}" msg = false ->
   print_start_message format msg start_time s
   = (Returned tt, out_to s (msg ++ newline))) /\
  (contains "{start_time}" msg = true ->
   forall text,
     format msg [("start_time", start_time)] = inr text ->
     print_start_message format msg start_time s
     = (Returned tt, out_to s (text ++ newline))) /\
  (contains "{start_time}" msg = true ->
   forall e,
     format msg [("start_time", start_time)] = inl e ->
     print_start_message format msg start_time s = (Raised e, s)).
Proof.
  unfold print_start_message.
  split; [|split].
  - intros ->. reflexivity.
  - intros -> text Hf. cbn. rewrite Hf. reflexivity.
  - intros -> e Hf. cbn. rewrite Hf. reflexivity.
Qed.

End EngineExtras.

(** ** Further properties of the stopped clock *)

Section StoppedExtras.

Context {W : Type}.
Variable format : string -> kwargs -> exn + string.
Variable callable_object : W -> Result * W.
Variable timeout delay : Z.
Variable start_message : option string.
Variable silent : bool.

Abbreviation sstate := (state (StoppedClock.t W) W).
Abbreviation sretry_loop := (retry_loop callable_object delay silent).
Abbreviation sf_retry :=
  (f_retry format callable_object timeout delay start_message silent).

Lemma plain_times_cons (t : Z) (l : list Z) :
  @plain_times W (t :: l) = StoppedClock.Plain t :: plain_times l.
Proof. reflexivity. Qed.

Lemma time_plain_cons (ts : list (StoppedClock.entry W)) t cur (w : W) :
  StoppedClock.time (StoppedClock.mk ts (Some (plain_times (t :: cur)))) w
  = (inr t, StoppedClock.mk ts (Some (plain_times cur)), w).
Proof. reflexivity. Qed.

Lemma time_plain_nil (ts : list (StoppedClock.entry W)) (w : W) :
  StoppedClock.time (StoppedClock.mk ts (Some (plain_times []))) w
  = (inl StopIteration, StoppedClock.mk ts (Some (plain_times [])), w).
Proof. reflexivity. Qed.

Lemma readings_plain (k : nat) :
  forall (ts : list (StoppedClock.entry W)) (cur : list Z) (w : W),
    readings k (StoppedClock.mk ts (Some (plain_times cur))) w =
    ((map inr (firstn k cur) ++ repeat (inl StopIteration) (k - length cur))%list,
     StoppedClock.mk ts (Some (plain_times (skipn k cur))), w).
Proof.
  induction k as [|k IH]; intros ts cur w.
  - reflexivity.
  - destruct cur as [|t cur]; cbn [readings].
    + rewrite time_plain_nil, IH.
      rewrite firstn_nil, skipn_nil. cbn [length]. rewrite Nat.sub_0_r.
      reflexivity.
    + rewrite time_plain_cons, IH. reflexivity.
Qed.

(** After [set_times] on a list of bare times, whatever the clock held
    before, successive calls of [time] give the times in the order of
    the list; once the list is used up every further call raises
    StopIteration.  Reading changes neither the environment nor the
    [times] attribute. *)
Theorem stopped_clock_reads_in_order
    (k : nat) (l : list Z) (c : StoppedClock.t W) (w : W) :
  readings k (StoppedClock.set_times (plain_times l) c) w =
  ((map inr (firstn k l) ++ repeat (inl StopIteration) (k - length l))%list,
   StoppedClock.mk (plain_times l) (Some (plain_times (skipn k l))), w).
Proof. unfold StoppedClock.set_times. apply readings_plain. Qed.

Lemma stopped_time_inv (c c' : StoppedClock.t W) (w w' : W) x :
  StoppedClock.time c w = (x, c', w') ->
  StoppedClock.times c' = StoppedClock.times c /\
  (forall t, x = inr t ->
             StoppedClock.remaining c = S (StoppedClock.remaining c')).
Proof.
  unfold StoppedClock.time, StoppedClock.remaining.
  destruct (StoppedClock.current c) as [[|[v|v ex|v f] rest]|] eqn:Ec;
    intros H; inversion H; subst; cbn; try rewrite Ec;
    (split; [reflexivity|]); intros t Ht; try discriminate; reflexivity.
Qed.

Lemma retry_loop_stopped_consumes fuel :
  forall deadline current_time tick_counter result (s s' : sstate) out,
    sretry_loop fuel deadline current_time tick_counter result s = (out, s') ->
    StoppedClock.times (clk s') = StoppedClock.times (clk s) /\
    forall locals,
      out = Returned locals ->
      (StoppedClock.remaining (clk s) + count_samples (trace s)
       = StoppedClock.remaining (clk s') + count_samples (trace s'))%nat.
Proof.
  induction fuel as [|fuel IH]; intros d ct tc res s s' out H.
  - rewrite retry_loop_zero in H.
    destruct (ct <? d); inversion H; subst; (split; [reflexivity|]);
      intros; lia.
  - rewrite retry_loop_unfold in H.
    destruct (ct <? d).
    2:{ inversion H; subst. split; [reflexivity | intros; lia]. }
    destruct (callable_object (env s)) as [r w].
    destruct (isinstance r NotReady_cls).
    2:{ inversion H; subst. cbn [clk trace]. rewrite count_samples_cons. cbn.
        split; [reflexivity | intros; lia]. }
    cbn [clock_time clock_sleep StoppedClock.clock] in H.
    unfold StoppedClock.sleep in H.
    destruct (StoppedClock.time (clk s) w) as [[[e|t] c'] w'] eqn:Et;
      apply stopped_time_inv in Et as [Hts Hrem].
    + inversion H; subst. cbn [clk]. split; [exact Hts|].
      intros locals Hl; discriminate.
    + apply IH in H as [Hts' Hret]. cbn [clk trace] in Hts', Hret.
      split; [congruence|].
      intros locals Hl. specialize (Hret locals Hl).
      rewrite !count_samples_cons in Hret. cbn in Hret.
      specialize (Hrem t eq_refl). lia.
Qed.

(** A session never reloads the stopped clock: however it ends, the
    list of times is the one it found.  A session that returns has used
    up exactly one entry of the clock per clock reading. *)
Theorem session_consumes_one_entry_per_reading fuel (s s' : sstate) out :
  sf_retry fuel s = (out, s') ->
  StoppedClock.times (clk s') = StoppedClock.times (clk s) /\
  forall r,
    out = Returned r ->
    trace s = [] ->
    StoppedClock.remaining (clk s)
    = (StoppedClock.remaining (clk s') + count_samples (trace s'))%nat.
Proof.
  intros H. split.
  - apply f_retry_inv in H
      as [[e [c [w [Hclk [_ ->]]]]]
         |[t0 [c [w [Hclk [[e [_ [-> _]]]|[lout [s2 [Hl H]]]]]]]]];
      cbn [clock_time StoppedClock.clock] in Hclk;
      apply stopped_time_inv in Hclk as [Hts _]; try exact Hts.
    apply retry_loop_stopped_consumes in Hl as [Hts' _].
    cbn [clk out_to started] in Hts'.
    assert (Hc : clk s' = clk s2).
    { destruct lout as [[[res ct] tc]|e|].
      - apply finish_inv in H as [_ [Hc _]]. exact Hc.
      - destruct H as [_ ->]. reflexivity.
      - destruct H as [_ ->]. reflexivity. }
    rewrite Hc. congruence.
  - intros r -> Hnil.
    apply f_retry_returned in H
      as [t0 [c [w [ct [tc [s2 [Hclk [Hl [Hf Ht]]]]]]]]].
    cbn [clock_time StoppedClock.clock] in Hclk.
    apply stopped_time_inv in Hclk as [Hts Hrem]. specialize (Hrem t0 eq_refl).
    apply retry_loop_stopped_consumes in Hl as [Hts' Hret].
    specialize (Hret _ eq_refl). cbn [clk trace out_to started] in Hts', Hret.
    rewrite Hnil in Hret. cbn in Hret.
    apply finish_inv in Hf as [_ [Hc _]].
    rewrite Ht, Hc. lia.
Qed.

Lemma retry_loop_stopped_exhausts (l : list Z) :
  forall fuel deadline current_time tick_counter result (s : sstate),
    (forall w, isinstance (fst (callable_object w)) NotReady_cls = true) ->
    StoppedClock.current (clk s) = Some (plain_times l) ->
    Forall (fun t => t < deadline) l ->
    current_time < deadline ->
    (length l < fuel)%nat ->
    exists s',
      sretry_loop fuel deadline current_time tick_counter result s
      = (Raised StopIteration, s') /\
      count_calls (trace s') = (count_calls (trace s) + length l + 1)%nat.
Proof.
  induction l as [|t l IH]; intros fuel d ct tc res s Hnr Hcur Hall Hct Hfuel;
    (destruct fuel as [|fuel]; [cbn in Hfuel; lia|]);
    rewrite retry_loop_unfold;
    (destruct (Z.ltb_spec ct d); [|lia]);
    pose proof (Hnr (env s)) as Hr;
    destruct (callable_object (env s)) as [r w]; cbn [fst] in Hr; rewrite Hr;
    cbn [clock_time clock_sleep StoppedClock.clock];
    unfold StoppedClock.sleep, StoppedClock.time; rewrite Hcur.
  - cbn. eexists. split; [reflexivity|]. cbn [trace].
    rewrite !count_calls_cons. cbn. lia.
  - rewrite plain_times_cons.
    inversion Hall as [|? ? Ht Hall']; subst.
    edestruct (IH fuel d t (increment tc) (Some r)) as [s' [Hrun Hcalls]];
      [exact Hnr | | exact Hall' | exact Ht | cbn in Hfuel; lia | ].
    2:{ exists s'. split; [exact Hrun|]. rewrite Hcalls. cbn [trace].
        rewrite !count_calls_cons. cbn. lia. }
    reflexivity.
Qed.

(** When the operation always answers NotReady and every time of the
    stopped clock lies below the deadline, the session does not return:
    it makes one attempt per entry of the clock and ends with the
    StopIteration of the reading that finds the clock used up. *)
Theorem session_outlives_stopped_clock
    fuel (s : sstate) (t0 : Z) (l : list Z) :
  (forall w, isinstance (fst (callable_object w)) NotReady_cls = true) ->
  StoppedClock.current (clk s) = Some (plain_times (t0 :: l)) ->
  Forall (fun t => t < t0 + timeout) (t0 :: l) ->
  start_message_ok format start_message silent t0 ->
  (length l < fuel)%nat ->
  fst (sf_retry fuel s) = Raised StopIteration /\
  count_calls (trace (snd (sf_retry fuel s)))
  = (count_calls (trace s) + length (t0 :: l))%nat.
Proof.
  intros Hnr Hcur Hall Hstart Hfuel.
  inversion Hall as [|? ? Ht0 Hall']; subst.
  rewrite f_retry_phases.
  erewrite bind_returned.
  2:{ unfold time. cbn [clock_time StoppedClock.clock].
      unfold StoppedClock.time. rewrite Hcur, plain_times_cons. reflexivity. }
  erewrite bind_returned by (apply announce_start_ok; exact Hstart).
  edestruct (retry_loop_stopped_exhausts l fuel (t0 + timeout) t0
               TickCounter_init None) as [s' [Hrun Hcalls]];
    [exact Hnr | | exact Hall' | exact Ht0 | exact Hfuel | ].
  2:{ cbn [bind Monad_M]. rewrite Hrun. cbn [fst snd].
      split; [reflexivity|]. rewrite Hcalls. cbn [trace out_to].
      rewrite count_calls_cons. cbn. lia. }
  reflexivity.
Qed.

(** A session against a stopped clock with nothing to give makes no
    attempt and writes nothing: it raises StopIteration when the list of
    times is empty, and AttributeError when [set_times] was never
    called. *)
Theorem session_on_empty_clock fuel (s : sstate) :
  (StoppedClock.current (clk s) = Some [] ->
   f_retry format callable_object timeout delay start_message silent fuel s =
   (Raised StopIteration,
    mkState (clk s) (env s) (stdout s) (stderr s)
            (EvTimeRaised StopIteration :: trace s))) /\
  (StoppedClock.current (clk s) = None ->
   f_retry format callable_object timeout delay start_message silent fuel s =
   (Raised (AttributeError "current"),
    mkState (clk s) (env s) (stdout s) (stderr s)
            (EvTimeRaised (AttributeError "current") :: trace s))).
Proof.
  split; intros Hcur; rewrite f_retry_phases; cbn [bind Monad_M];
    unfold time; cbn [clock_time StoppedClock.clock];
    unfold StoppedClock.time; rewrite Hcur; reflexivity.
Qed.

End StoppedExtras.

(** ** The further properties at work *)

Lemma returned_result_witness :
  let run :=
    f_retry PyFormat.format check_value 200 4 None false 10
      (initial_state (clock_with_effect (Some true)) (Some false)) in
  fst run = Returned success_message /\
  last_call (trace (snd run)) = Some success_message.
Proof.
  intros run.
  assert (Hout : run = (Returned success_message, snd run))
    by (vm_compute; reflexivity).
  split; [vm_compute; reflexivity|].
  apply (returned_result_is_last_answer PyFormat.format check_value 200 4 None
           false 10 (initial_state (clock_with_effect (Some true)) (Some false))
           (snd run) success_message eq_refl Hout).
Defined.

Lemma gives_up_witness :
  let run :=
    f_retry PyFormat.format check_value 200 4 None false 10
      (initial_state test_clock (Some false)) in
  fst run = Returned not_ready_message /\
  (isinstance not_ready_message NotReady_cls = true <-> 200 + 200 <= 500).
Proof.
  intros run.
  assert (Hout : run = (Returned not_ready_message, snd run))
    by (vm_compute; reflexivity).
  assert (Hfirst : first_sample (trace (snd run)) = Some 200)
    by (vm_compute; reflexivity).
  assert (Hlast : last_sample (trace (snd run)) = Some 500)
    by (vm_compute; reflexivity).
  split; [vm_compute; reflexivity|].
  apply (gives_up_exactly_at_deadline PyFormat.format check_value 200 4 None
           false 10 (initial_state test_clock (Some false))
           (snd run) not_ready_message 200 500 eq_refl Hout Hfirst Hlast).
Defined.

Lemma session_accounting_witness :
  let run :=
    f_retry PyFormat.format check_value 200 4 None false 10
      (initial_state (clock_with_effect (Some true)) (Some false)) in
  count_not_ready (trace (snd run)) = 2%nat /\
  count_samples (trace (snd run)) = (count_not_ready (trace (snd run)) + 1)%nat /\
  count_sleeps (trace (snd run)) = count_not_ready (trace (snd run)) /\
  sleeps_after_not_ready 4 (trace (snd run)) = true /\
  count_calls (trace (snd run))
  = (count_not_ready (trace (snd run))
     + (if isinstance success_message NotReady_cls then 0 else 1))%nat.
Proof.
  intros run.
  assert (Hout : run = (Returned success_message, snd run))
    by (vm_compute; reflexivity).
  split; [vm_compute; reflexivity|].
  apply (session_accounting PyFormat.format check_value 200 4 None
           false 10 (initial_state (clock_with_effect (Some true)) (Some false))
           (snd run) success_message eq_refl Hout).
Defined.

Lemma silent_session_witness :
  let s := initial_state test_clock (Some false) in
  let run := f_retry PyFormat.format check_value 200 4 (Some "Waiting") true 10 s in
  fst run = Returned not_ready_message /\
  stdout (snd run) = "" /\ stderr (snd run) = "".
Proof.
  intros s run.
  split; [vm_compute; reflexivity|].
  apply (silent_session_writes_nothing PyFormat.format check_value 200 4
           (Some "Waiting") true 10 s (snd run) (fst run) eq_refl
           (surjective_pairing run)).
Defined.

Lemma success_spares_error_channel_witness :
  let run :=
    f_retry PyFormat.format check_value 200 4 None false 10
      (initial_state (clock_with_effect (Some true)) (Some false)) in
  stderr (snd run) = "".
Proof.
  intros run.
  assert (Hout : run = (Returned success_message, snd run))
    by (vm_compute; reflexivity).
  apply (success_spares_error_channel PyFormat.format check_value 200 4 None
           false 10 (initial_state (clock_with_effect (Some true)) (Some false))
           (snd run)
           (PStr "Check succeeded after {total_time} seconds and {retries} retries")
           Hout).
Defined.

Lemma print_start_message_witness :
  let s := initial_state test_clock (Some false) in
  contains "{start_time}" "Waiting for {host}" = false /\
  print_start_message PyFormat.format "Waiting for {host}" 200 s
  = (Returned tt, out_to s ("Waiting for {host}" ++ newline)) /\
  contains "{start_time}" "Started at {start_time}" = true /\
  print_start_message PyFormat.format "Started at {start_time}" 200 s
  = (Returned tt, out_to s ("Started at 200" ++ newline)) /\
  print_start_message PyFormat.format "{start_time} {host}" 200 s
  = (Raised (KeyError "host"), s).
Proof.
  intros s.
  split; [reflexivity|]. split.
  - apply (proj1 (print_start_message_cases PyFormat.format
                    "Waiting for {host}" 200 s)).
    reflexivity.
  - split; [reflexivity|]. split.
    + apply (proj1 (proj2 (print_start_message_cases PyFormat.format
                             "Started at {start_time}" 200 s)));
        reflexivity.
    + apply (proj2 (proj2 (print_start_message_cases PyFormat.format
                             "{start_time} {host}" 200 s)));
        reflexivity.
Defined.

Lemma session_consumes_witness :
  let s := initial_state test_clock (Some false) in
  let run := f_retry PyFormat.format check_value 200 4 None false 10 s in
  fst run = Returned not_ready_message /\
  count_samples (trace (snd run)) = 5%nat /\
  StoppedClock.times (clk (snd run)) = StoppedClock.times (clk s) /\
  StoppedClock.remaining (clk s)
  = (StoppedClock.remaining (clk (snd run)) + count_samples (trace (snd run)))%nat.
Proof.
  intros s run.
  assert (Hout : fst run = Returned not_ready_message)
    by (vm_compute; reflexivity).
  split; [exact Hout|].
  split; [vm_compute; reflexivity|].
  destruct (session_consumes_one_entry_per_reading PyFormat.format check_value
              200 4 None false 10 s (snd run) (fst run)
              (surjective_pairing run)) as [Hts Hrem].
  split; [exact Hts|].
  exact (Hrem not_ready_message Hout eq_refl).
Defined.

(** The list of times survives a session that raises as well. *)
Example raising_session_keeps_times :
  let s := initial_state failing_clock (Some false) in
  let run := f_retry PyFormat.format check_value 200 4 None false 10 s in
  fst run = Raised (Injected "boom") /\
  StoppedClock.times (clk (snd run)) = StoppedClock.times (clk s).
Proof. vm_compute. split; reflexivity. Qed.

Lemma stopped_terminates_witness :
  let s := initial_state test_clock (Some false) in
  (StoppedClock.remaining (clk s) <= 6)%nat /\
  fst (f_retry PyFormat.format check_value 200 4 None false 6 s) <> OutOfFuel.
Proof.
  intros s.
  assert (Hrem : (StoppedClock.remaining (clk s) <= 6)%nat)
    by (vm_compute; reflexivity).
  split; [exact Hrem|].
  apply (f_retry_stopped_terminates PyFormat.format check_value 200 4 None
           false 6 s Hrem).
Defined.

Lemma session_outlives_witness :
  let op := fun w : unit => (not_ready_message, w) in
  let s :=
    initial_state
      (StoppedClock.set_times (plain_times [200; 250; 300]) StoppedClock.init) tt in
  fst (f_retry PyFormat.format op 200 4 None false 3 s) = Raised StopIteration /\
  count_calls (trace (snd (f_retry PyFormat.format op 200 4 None false 3 s)))
  = 3%nat.
Proof.
  intros op s.
  apply (session_outlives_stopped_clock PyFormat.format op 200 4 None false
           3 s 200 [250; 300]).
  - intros w. reflexivity.
  - reflexivity.
  - repeat constructor.
  - intros msg H. discriminate.
  - cbn. lia.
Defined.

Lemma session_on_empty_clock_witness :
  let s0 :=
    initial_state (StoppedClock.set_times [] StoppedClock.init) (Some true) in
  let s1 := initial_state StoppedClock.init (Some true) in
  fst (f_retry PyFormat.format check_value 200 4 None false 10 s0)
  = Raised StopIteration /\
  fst (f_retry PyFormat.format check_value 200 4 None false 10 s1)
  = Raised (AttributeError "current").
Proof.
  intros s0 s1. split.
  - exact (f_equal fst
             (proj1 (session_on_empty_clock PyFormat.format check_value 200 4
                       None false 10 s0) eq_refl)).
  - exact (f_equal fst
             (proj2 (session_on_empty_clock PyFormat.format check_value 200 4
                       None false 10 s1) eq_refl)).
Defined.


(** C7, where the code departs from it.  A payload that is a string
    has a [format] method, so the end announcement substitutes it; when
    the string holds a field that is no keyword of the substitution the
    line break is written, the substitution raises KeyError and nothing
    is printed on either channel, whichever the variant of the result. *)
Theorem end_message_raises_on_unknown_field :
  let s := initial_state test_clock (Some false) in
  hasattr_format (PStr "{oops}") = true /\
  print_end_message PyFormat.format (Failure (PStr "{oops}")) 100 3 s
  = (Raised (KeyError "oops"), out_to s newline) /\
  print_end_message PyFormat.format (NotReady (PStr "{oops}")) 100 3 s
  = (Raised (KeyError "oops"), out_to s newline) /\
  print_end_message PyFormat.format (Success (PStr "{oops}")) 100 3 s
  = (Raised (KeyError "oops"), out_to s newline).
Proof. vm_compute. repeat split. Qed.
